(** * Autonomous loop and planning module of the eliza agent: a shallow embedding

    The development follows the TypeScript sources of [plugin-autonomous]:

    - [services/PlanningModule.ts]  (module [Services]):  the stateless planner
      with [generatePlan], [monitorPlan] and [replanIfNeeded];
    - [src/PlanningModule.ts]       (module [Planner]):   the planner that owns
      the current-plan slot, with the composite [plan] routine;
    - [src/AutonomousLoop.ts]       (module [Loop]):      the single-timer loop;
    - [services/AutonomousLoop.ts]  (module [TimerLoop]): the two-timer loop.

    Asynchronous methods are run to completion: a call is a state transformer
    on a world that either resolves with a value or rejects with an [Error].
    Objects that the code shares by reference (plans) live in a heap and are
    named by their address; [Date.now()] and [Math.random()] read the next
    value of a stream that the world carries. *)

From stdpp Require Import base option list strings pretty.

Open Scope Z_scope.
Open Scope string_scope.
Open Scope list_scope.

(** ** Calls that resolve or reject *)

Inductive outcome (A : Type) : Type :=
| Ret (a : A)
| Throw (message : string).
Arguments Ret {A} a.
Arguments Throw {A} message.

(** A method over a world [W]: the world after the call is kept also when the
    call rejects, as the assignments made before a [throw] are. *)
Definition M (W A : Type) : Type := W -> outcome A * W.

Definition ret {W A} (a : A) : M W A := fun w => (Ret a, w).

Definition throw {W A} (message : string) : M W A := fun w => (Throw message, w).

Definition bind {W A B} (m : M W A) (k : A -> M W B) : M W B :=
  fun w =>
    match m w with
    | (Ret a, w') => k a w'
    | (Throw e, w') => (Throw e, w')
    end.

(** [try { body } catch (error) { handler }] *)
Definition try_catch {W A} (body : M W A) (handler : string -> M W A) : M W A :=
  fun w =>
    match body w with
    | (Ret a, w') => (Ret a, w')
    | (Throw e, w') => handler e w'
    end.

(** [try { body } finally { fin }]: [fin] runs on both exits; the outcome of
    [body] is kept unless [fin] itself rejects. *)
Definition try_finally {W A} (body : M W A) (fin : M W unit) : M W A :=
  fun w =>
    let (r, w') := body w in
    match fin w' with
    | (Ret _, w'') => (r, w'')
    | (Throw e, w'') => (Throw e, w'')
    end.

Definition modify {W} (f : W -> W) : M W unit := fun w => (Ret tt, f w).

Definition gets {W A} (f : W -> A) : M W A := fun w => (Ret (f w), w).

Declare Scope js_scope.
Delimit Scope js_scope with js.
Notation "'let*' x ':=' m 'in' k" := (bind m (fun x => k))
  (at level 10, x name, m at level 100, k at level 200) : js_scope.
Notation "m ';;' k" := (bind m (fun _ => k))
  (at level 100, k at level 200, right associativity) : js_scope.

(** The loop [for (const x of xs) { body x }]. *)
Fixpoint for_of {W A} (xs : list A) (body : A -> M W unit) : M W unit :=
  match xs with
  | [] => ret tt
  | x :: rest => bind (body x) (fun _ => for_of rest body)
  end.

Definition resolved {A} (r : outcome A) : bool :=
  match r with Ret _ => true | Throw _ => false end.

(** ** JavaScript values the planner stores without inspecting them *)

#[warnings="-register-all"]
Inductive JsValue : Type :=
| JNumber (z : Z)
| JString (s : string)
| JArray (items : list JsValue).

(** [x || y] on an optional number: [undefined] and [0] are falsy. *)
Definition or_number (x : option Z) (y : Z) : Z :=
  match x with
  | Some v => if Z.eqb v 0 then y else v
  | None => y
  end.

(** [x || y] on an optional string: [undefined] and [''] are falsy. *)
Definition or_string (x : option string) (y : string) : string :=
  match x with
  | Some "" => y
  | Some s => s
  | None => y
  end.

(** * services/PlanningModule.ts *)

Module Services.

Inductive SubtaskStatus : Type := pending | in_progress | completed | failed.

Definition SubtaskStatus_eqb (a b : SubtaskStatus) : bool :=
  match a, b with
  | pending, pending | in_progress, in_progress
  | completed, completed | failed, failed => true
  | _, _ => false
  end.

Inductive PlanStatus : Type :=
| plan_created | plan_in_progress | plan_completed | plan_failed.

(** The string literal of each member of the union type. *)
Definition PlanStatus_name (s : PlanStatus) : string :=
  match s with
  | plan_created => "created"
  | plan_in_progress => "in_progress"
  | plan_completed => "completed"
  | plan_failed => "failed"
  end.

Module Subtask.
Record t : Type := mk
    { id : string;
      description : string;
      status : SubtaskStatus;
      createdAt : Z;
      updatedAt : Z;
      data : option (list (string * JsValue)) }.
End Subtask.

Module Metadata.
Record t : Type := mk
    { previousPlanId : option string;
      replanReason : option string;
      originalPlanCreatedAt : option Z;
      (* [key: string]: unknown *)
      extra : list (string * JsValue) }.
End Metadata.

Module Plan.
Record t : Type := mk
    { id : string;
      subtasks : list Subtask.t;
      status : PlanStatus;
      createdAt : Z;
      updatedAt : Z;
      metadata : option Metadata.t }.

Definition with_metadata (m : Metadata.t) (p : t) : t :=
    mk (id p) (subtasks p) (status p) (createdAt p) (updatedAt p) (Some m).
End Plan.

(** The [State] of @elizaos/core, of which the planner reads [agentName]. *)
Record State : Type := { agentName : option string }.

(** A reference to a plan object. *)
Definition ref : Type := nat.

Record World : Type := mkWorld
  { heap : list Plan.t;          (* plan objects, by address *)
    clock : nat -> Z;            (* successive results of Date.now() *)
    clockReads : nat;
    dice : nat -> Z;             (* successive Math.floor(Math.random() * 1000) *)
    diceReads : nat;
    console : list string }.     (* lines written by console.log *)

Definition Date_now : M World Z := fun w =>
  (Ret (clock w (clockReads w)),
   mkWorld (heap w) (clock w) (S (clockReads w)) (dice w) (diceReads w) (console w)).

(** [Math.floor(Math.random() * 1000)] *)
Definition random_1000 : M World Z := fun w =>
  (Ret (dice w (diceReads w)),
   mkWorld (heap w) (clock w) (clockReads w) (dice w) (S (diceReads w)) (console w)).

Definition console_log (line : string) : M World unit := fun w =>
  (Ret tt,
   mkWorld (heap w) (clock w) (clockReads w) (dice w) (diceReads w) (console w ++ [line])).

(** An object literal evaluated to a new object. *)
Definition alloc (p : Plan.t) : M World ref := fun w =>
  (Ret (length (heap w)),
   mkWorld (heap w ++ [p]) (clock w) (clockReads w) (dice w) (diceReads w) (console w)).

(** Reading through a reference. References handed out by [alloc] are always
    live; the rejecting branch is there to keep the function total. *)
Definition deref (l : ref) : M World Plan.t := fun w =>
  match heap w !! l with
  | Some p => (Ret p, w)
  | None => (Throw "TypeError: dangling reference", w)
  end.

(** [l.metadata = m] *)
Definition set_metadata (l : ref) (m : Metadata.t) : M World unit := fun w =>
  match heap w !! l with
  | Some p =>
      (Ret tt,
       mkWorld (<[l := Plan.with_metadata m p]> (heap w)) (clock w) (clockReads w)
               (dice w) (diceReads w) (console w))
  | None => (Throw "TypeError: dangling reference", w)
  end.

Local Open Scope js_scope.

(** One entry of the subtask array literal of [generatePlan]: the fields are
    evaluated in the order they are written, [id] first. *)
Definition new_subtask (suffix : string) (describe : string) : M World Subtask.t :=
  let* t_id := Date_now in
  let* t_created := Date_now in
  let* t_updated := Date_now in
  ret (Subtask.mk ("subtask-" +:+ pretty t_id +:+ suffix) describe pending
                  t_created t_updated None).

Definition generatePlan (state : State) : M World ref :=
  let* t := Date_now in
  let* r := random_1000 in
  let planId := "plan-" +:+ pretty t +:+ "-" +:+ pretty r in
  let* s1 := new_subtask "-1"
               ("Analyze recent messages from " +:+ or_string (agentName state) "user") in
  let* s2 := new_subtask "-2" "Check for any required actions" in
  let* s3 := new_subtask "-3" "Prepare appropriate response" in
  let* t_created := Date_now in
  let* t_updated := Date_now in
  alloc (Plan.mk planId [s1; s2; s3] plan_created t_created t_updated None).

Definition count_status (s : SubtaskStatus) (p : Plan.t) : nat :=
  length (filter (fun task => SubtaskStatus_eqb (Subtask.status task) s = true)
                 (Plan.subtasks p)).

Definition monitor_header (p : Plan.t) : string :=
  "Monitoring plan " +:+ Plan.id p +:+ " with "
    +:+ pretty (length (Plan.subtasks p)) +:+ " subtasks".

Definition monitor_tally (p : Plan.t) : string :=
  "Plan status: " +:+ pretty (count_status pending p) +:+ " pending, "
    +:+ pretty (count_status in_progress p) +:+ " in progress, "
    +:+ pretty (count_status completed p) +:+ " completed, "
    +:+ pretty (count_status failed p) +:+ " failed".

(** [async monitorPlan(plan: Plan): Promise<void>]; the argument is [None]
    when the caller passes [null]. *)
Definition monitorPlan (plan : option ref) : M World unit :=
  match plan with
  | None => throw "Invalid plan provided"
  | Some l =>
      let* p := deref l in
      console_log (monitor_header p);;
      console_log (monitor_tally p)
  end.

Definition hasFailedTasks (p : Plan.t) : bool :=
  existsb (fun task => SubtaskStatus_eqb (Subtask.status task) failed)
          (Plan.subtasks p).

Definition lineage (currentPlan : Plan.t) : Metadata.t :=
  Metadata.mk
    (Some (Plan.id currentPlan))
    (Some "Failed tasks detected")
    (Some (or_number
             (match Plan.metadata currentPlan with
              | Some m => Metadata.originalPlanCreatedAt m
              | None => None
              end)
             (Plan.createdAt currentPlan)))
    [].

Definition replanIfNeeded (state : State) (currentPlan : option ref) : M World ref :=
  match currentPlan with
  | None => throw "Invalid plan provided"
  | Some l =>
      let* p := deref l in
      console_log ("Checking if plan " +:+ Plan.id p +:+ " needs updating");;
      if hasFailedTasks p then
        console_log "Detected failed tasks, generating new plan";;
        let* newPlan := generatePlan state in
        let* cur := deref l in
        set_metadata newPlan (lineage cur);;
        ret newPlan
      else
        console_log "No replanning needed, continuing with current plan";;
        ret l
  end.

End Services.

(** * src/PlanningModule.ts *)

Module Planner.

Inductive SubtaskStatus : Type := pending | in_progress | completed | failed.

Definition SubtaskStatus_eqb (a b : SubtaskStatus) : bool :=
  match a, b with
  | pending, pending | in_progress, in_progress
  | completed, completed | failed, failed => true
  | _, _ => false
  end.

Definition SubtaskStatus_name (s : SubtaskStatus) : string :=
  match s with
  | pending => "pending"
  | in_progress => "in_progress"
  | completed => "completed"
  | failed => "failed"
  end.

Inductive PlanStatus : Type := active | plan_completed | abandoned.

Module Subtask.
Record t : Type := mk
  { id : string;
    description : string;
    status : SubtaskStatus;
    dependencies : option (list string) }.

Definition with_status (s : SubtaskStatus) (task : t) : t :=
  mk (id task) (description task) s (dependencies task).
End Subtask.

Module Plan.
Record t : Type := mk
  { id : string;
    goal : string;
    subtasks : list Subtask.t;
    createdAt : Z;
    updatedAt : Z;
    status : PlanStatus }.

Definition with_subtasks (ts : list Subtask.t) (p : t) : t :=
  mk (id p) (goal p) ts (createdAt p) (updatedAt p) (status p).

Definition with_updatedAt (time : Z) (p : t) : t :=
  mk (id p) (goal p) (subtasks p) (createdAt p) time (status p).

Definition with_status (s : PlanStatus) (p : t) : t :=
  mk (id p) (goal p) (subtasks p) (createdAt p) (updatedAt p) s.
End Plan.

(** A record handed to [elizaLogger]: the level, the [action] tag, the other
    fields of the structured part, and the message. The [agentId] field, the
    same in every record, is left out. *)
Inductive Level : Type := info | warn | error.

Record LogEntry : Type := mkLog
  { level : Level;
    action : string;
    fields : list (string * string);
    message : string }.

Definition ref : Type := nat.

Record World : Type := mkWorld
  { heap : list Plan.t;               (* plan objects, by address *)
    currentPlan : option ref;         (* this.currentPlan *)
    isPlanningInProgress : bool;      (* this.isPlanningInProgress *)
    clock : nat -> Z;                 (* successive results of Date.now() *)
    clockReads : nat;
    journal : list LogEntry }.        (* what elizaLogger received *)

Definition set_heap (h : list Plan.t) (w : World) : World :=
  mkWorld h (currentPlan w) (isPlanningInProgress w) (clock w) (clockReads w) (journal w).

Definition set_currentPlan (c : option ref) (w : World) : World :=
  mkWorld (heap w) c (isPlanningInProgress w) (clock w) (clockReads w) (journal w).

Definition set_isPlanningInProgress (b : bool) (w : World) : World :=
  mkWorld (heap w) (currentPlan w) b (clock w) (clockReads w) (journal w).

Definition Date_now : M World Z := fun w =>
  (Ret (clock w (clockReads w)),
   mkWorld (heap w) (currentPlan w) (isPlanningInProgress w) (clock w)
           (S (clockReads w)) (journal w)).

Definition elizaLogger (lv : Level) (tag : string) (more : list (string * string))
    (text : string) : M World unit := fun w =>
  (Ret tt,
   mkWorld (heap w) (currentPlan w) (isPlanningInProgress w) (clock w) (clockReads w)
           (journal w ++ [mkLog lv tag more text])).

Definition alloc (p : Plan.t) : M World ref := fun w =>
  (Ret (length (heap w)), set_heap (heap w ++ [p]) w).

Definition deref (l : ref) : M World Plan.t := fun w =>
  match heap w !! l with
  | Some p => (Ret p, w)
  | None => (Throw "TypeError: dangling reference", w)
  end.

(** An assignment to fields of the object at [l]. *)
Definition update (l : ref) (f : Plan.t -> Plan.t) : M World unit := fun w =>
  match heap w !! l with
  | Some p => (Ret tt, set_heap (<[l := f p]> (heap w)) w)
  | None => (Throw "TypeError: dangling reference", w)
  end.

(** The initial world of [new PlanningModule(runtime)]. *)
Definition init (now : nat -> Z) : World := mkWorld [] None false now 0 [].

Local Open Scope js_scope.

(** [this.currentPlan?.id], as a log field. *)
Definition planId_field : M World (list (string * string)) :=
  let* cur := gets currentPlan in
  match cur with
  | None => ret []
  | Some l => let* p := deref l in ret [("planId", Plan.id p)]
  end.

Definition generatePlan : M World unit :=
  elizaLogger info "generate_plan" [] "Generating new plan";;
  try_catch
    (let* t_plan := Date_now in
     let* t_task1 := Date_now in
     let* t_task2 := Date_now in
     let* t_dep := Date_now in
     let* t_created := Date_now in
     let* t_updated := Date_now in
     let* newPlan :=
       alloc (Plan.mk ("plan-" +:+ pretty t_plan) "Default goal"
                [ Subtask.mk ("task-" +:+ pretty t_task1 +:+ "-1")
                             "Example subtask 1" pending None;
                  Subtask.mk ("task-" +:+ pretty t_task2 +:+ "-2")
                             "Example subtask 2" pending
                             (Some ["task-" +:+ pretty t_dep +:+ "-1"]) ]
                t_created t_updated active) in
     modify (set_currentPlan (Some newPlan));;
     elizaLogger info "plan_generated" [("planId", "plan-" +:+ pretty t_plan)]
                 "New plan generated")
    (fun e =>
       elizaLogger error "generate_plan_error" [("error", e)] "Error generating plan";;
       throw e).

Definition checkPlanProgress : M World (list string) :=
  let* cur := gets currentPlan in
  match cur with
  | None => ret []
  | Some l =>
      let* p := deref l in
      elizaLogger info "check_plan_progress" [("planId", Plan.id p)]
                  "Checking plan progress";;
      ret []
  end.

Definition shouldReplan (discrepancies : list string) : bool :=
  existsb (fun d => String.prefix "CRITICAL:" d) discrepancies.

Definition isAllSubtasksCompleted : M World bool :=
  let* cur := gets currentPlan in
  match cur with
  | None => ret false
  | Some l =>
      let* p := deref l in
      ret (forallb (fun task => SubtaskStatus_eqb (Subtask.status task) completed)
                   (Plan.subtasks p))
  end.

Definition completePlan : M World unit :=
  let* cur := gets currentPlan in
  match cur with
  | None => ret tt
  | Some l =>
      update l (Plan.with_status plan_completed);;
      let* time := Date_now in
      update l (Plan.with_updatedAt time);;
      let* p := deref l in
      elizaLogger info "plan_completed" [("planId", Plan.id p)]
                  "Plan completed successfully";;
      modify (set_currentPlan None)
  end.

(** The private methods that [plan] reaches through [this] and that the tests
    replace by spies are taken as parameters: [generatePlan_] stands for
    [this.generatePlan] and [checkPlanProgress_] for [this.checkPlanProgress]. *)
Section Composite.
Variable generatePlan_ : M World unit.
Variable checkPlanProgress_ : M World (list string).

Definition handleDiscrepancies_with (discrepancies : list string) : M World unit :=
  let* idField := planId_field in
  elizaLogger info "handle_discrepancies"
              (idField ++ [("discrepancyCount", pretty (length discrepancies))])
              "Handling plan discrepancies";;
  let needReplanning := shouldReplan discrepancies in
  if needReplanning then
    let* cur := gets currentPlan in
    match cur with
    | Some l =>
        update l (Plan.with_status abandoned);;
        let* time := Date_now in
        update l (Plan.with_updatedAt time)
    | None => ret tt
    end;;
    generatePlan_
  else ret tt.

Definition plan_with : M World unit :=
  let* busy := gets isPlanningInProgress in
  if busy : bool then
    elizaLogger warn "planning_skipped" [] "Planning cycle already in progress, skipping"
  else
    modify (set_isPlanningInProgress true);;
    try_finally
      (try_catch
         (let* cur := gets currentPlan in
          match cur with
          | None => generatePlan_
          | Some _ =>
              let* discrepancies := checkPlanProgress_ in
              (if (0 <? length discrepancies)%nat
               then handleDiscrepancies_with discrepancies
               else ret tt);;
              let* cur' := gets currentPlan in
              match cur' with
              | None => ret tt
              | Some _ =>
                  let* done := isAllSubtasksCompleted in
                  if done : bool then completePlan else ret tt
              end
          end)
         (fun e =>
            elizaLogger error "planning_error" [("error", e)]
                        "Error during planning cycle"))
      (modify (set_isPlanningInProgress false)).
End Composite.

Definition handleDiscrepancies : list string -> M World unit :=
  handleDiscrepancies_with generatePlan.

(** [public async plan(runtime)] *)
Definition plan : M World unit := plan_with generatePlan checkPlanProgress.

(** [public getCurrentPlan()] *)
Definition getCurrentPlan : M World (option ref) := gets currentPlan.

(** [subtasks.find(task => task.id === subtaskId)] followed by an assignment
    to the task found: the first match is the one that changes. *)
Fixpoint assign_first (subtaskId : string) (f : Subtask.t -> Subtask.t)
    (tasks : list Subtask.t) : list Subtask.t :=
  match tasks with
  | [] => []
  | task :: rest =>
      if String.eqb (Subtask.id task) subtaskId
      then f task :: rest
      else task :: assign_first subtaskId f rest
  end.

(** [public updateSubtaskStatus(subtaskId, status): boolean] *)
Definition updateSubtaskStatus (subtaskId : string) (status : SubtaskStatus)
    : M World bool :=
  let* cur := gets currentPlan in
  match cur with
  | None => ret false
  | Some l =>
      let* p := deref l in
      match find (fun task => String.eqb (Subtask.id task) subtaskId) (Plan.subtasks p) with
      | None => ret false
      | Some _ =>
          update l (fun q => Plan.with_subtasks
                               (assign_first subtaskId (Subtask.with_status status)
                                             (Plan.subtasks q)) q);;
          let* time := Date_now in
          update l (Plan.with_updatedAt time);;
          let* q := deref l in
          elizaLogger info "update_subtask_status"
                      [("planId", Plan.id q); ("subtaskId", subtaskId);
                       ("status", SubtaskStatus_name status)]
                      "Subtask status updated";;
          ret true
      end
  end.

(** The world with more entries in the journal and nothing else changed. *)
Definition journaled (entries : list LogEntry) (w : World) : World :=
  mkWorld (heap w) (currentPlan w) (isPlanningInProgress w) (clock w) (clockReads w)
          (journal w ++ entries).

(** ** The public interface, call by call

    [call_plan_drifting ds] is [plan] with [checkPlanProgress] resolving to
    the discrepancies [ds], as the tests arrange with a spy; the method in the
    source resolves to the empty list. *)
Inductive Call : Type :=
| call_plan
| call_plan_drifting (discrepancies : list string)
| call_getCurrentPlan
| call_updateSubtaskStatus (subtaskId : string) (status : SubtaskStatus).

Definition perform (c : Call) (w : World) : World :=
  match c with
  | call_plan => snd (plan w)
  | call_plan_drifting discrepancies =>
      snd (plan_with generatePlan (ret discrepancies) w)
  | call_getCurrentPlan => snd (getCurrentPlan w)
  | call_updateSubtaskStatus subtaskId status =>
      snd (updateSubtaskStatus subtaskId status w)
  end.

Definition after (calls : list Call) (w : World) : World :=
  fold_left (fun w' c => perform c w') calls w.

Definition is_mutator (c : Call) : bool :=
  match c with
  | call_updateSubtaskStatus _ _ => true
  | _ => false
  end.

(** A plan that may sit in the slot: of the statuses of this module only
    [active] is one of a plan in use. *)
Definition is_current (s : PlanStatus) : bool :=
  match s with
  | active => true
  | plan_completed | abandoned => false
  end.

Definition slot_current (w : World) : Prop :=
  match currentPlan w with
  | None => True
  | Some l => exists p, heap w !! l = Some p /\ is_current (Plan.status p) = true
  end.

(** Every plan object of [h] is still there in [h'], with the subtasks it had. *)
Definition keeps_subtasks (h h' : list Plan.t) : Prop :=
  forall (l : ref) (p : Plan.t),
    h !! l = Some p ->
    exists p', h' !! l = Some p' /\ Plan.subtasks p' = Plan.subtasks p.

(** ** Calls made while a cycle is in flight

    [plan] awaits [this.generatePlan] and [this.checkPlanProgress]; while it
    does, other callers run. [interleaved other step] is a step of the cycle
    with another call made before it starts and once more after it has
    resolved. *)
Definition interleaved {A} (other : M World unit) (step : M World A) : M World A :=
  other;;
  let* a := step in
  other;;
  ret a.

(** What an invocation of [plan] that is skipped does. *)
Definition skipped : M World unit :=
  elizaLogger warn "planning_skipped" [] "Planning cycle already in progress, skipping".

(** A step that leaves [isPlanningInProgress] set when it finds it set. *)
Definition keeps_flag_set {A} (step : M World A) : Prop :=
  forall v, isPlanningInProgress v = true -> isPlanningInProgress (snd (step v)) = true.

(** Two steps that do the same in every world where the flag is set. *)
Definition same_while_flag_set {A} (step step' : M World A) : Prop :=
  forall v, isPlanningInProgress v = true -> step v = step' v.
Ltac tidy :=
  cbn [heap currentPlan isPlanningInProgress clock clockReads journal
       set_heap set_currentPlan set_isPlanningInProgress journaled].

Ltac tidy_in H :=
  cbn [heap currentPlan isPlanningInProgress clock clockReads journal
       set_heap set_currentPlan set_isPlanningInProgress journaled] in H.

End Planner.

(** * src/AutonomousLoop.ts: one timer drives triggers and planning *)

Module Loop.

(** The records of [elizaLogger], as in the planner: without the [agentId]. *)
Inductive Level : Type := info | warn | error.

Record LogEntry : Type := mkLog
  { level : Level;
    action : string;
    fields : list (string * string);
    message : string }.

Section WithEnv.
(** What the registered callbacks act on. The callbacks are opaque to the
    loop and have no access to its private fields. *)
Context {Env : Type}.

(** [type TriggerCallback = () => Promise<void>] *)
Definition TriggerCallback : Type := M Env unit.

(** [type PlanningFunction = (runtime) => Promise<void>] *)
Definition PlanningFunction : Type := M Env unit.

Record World : Type := mkWorld
  { triggers : list TriggerCallback;
    loopTimer : option Z;               (* the armed interval, by its period *)
    isRunning : bool;
    planningFunction : option PlanningFunction;
    lastPlanTime : Z;
    planIntervalMs : Z;
    env : Env;
    clock : nat -> Z;                   (* successive results of Date.now() *)
    clockReads : nat;
    journal : list LogEntry }.

(** [new AutonomousLoop(runtime)] *)
Definition init (e : Env) (now : nat -> Z) : World :=
  mkWorld [] None false None 0 60000 e now 0 [].

Definition set_triggers (ts : list TriggerCallback) (w : World) : World :=
  mkWorld ts (loopTimer w) (isRunning w) (planningFunction w) (lastPlanTime w)
          (planIntervalMs w) (env w) (clock w) (clockReads w) (journal w).

Definition set_loopTimer (t : option Z) (w : World) : World :=
  mkWorld (triggers w) t (isRunning w) (planningFunction w) (lastPlanTime w)
          (planIntervalMs w) (env w) (clock w) (clockReads w) (journal w).

Definition set_isRunning (b : bool) (w : World) : World :=
  mkWorld (triggers w) (loopTimer w) b (planningFunction w) (lastPlanTime w)
          (planIntervalMs w) (env w) (clock w) (clockReads w) (journal w).

Definition set_planningFunction (f : option PlanningFunction) (w : World) : World :=
  mkWorld (triggers w) (loopTimer w) (isRunning w) f (lastPlanTime w)
          (planIntervalMs w) (env w) (clock w) (clockReads w) (journal w).

Definition set_lastPlanTime (t : Z) (w : World) : World :=
  mkWorld (triggers w) (loopTimer w) (isRunning w) (planningFunction w) t
          (planIntervalMs w) (env w) (clock w) (clockReads w) (journal w).

Definition set_planIntervalMs (t : Z) (w : World) : World :=
  mkWorld (triggers w) (loopTimer w) (isRunning w) (planningFunction w) (lastPlanTime w)
          t (env w) (clock w) (clockReads w) (journal w).

Definition set_env (e : Env) (w : World) : World :=
  mkWorld (triggers w) (loopTimer w) (isRunning w) (planningFunction w) (lastPlanTime w)
          (planIntervalMs w) e (clock w) (clockReads w) (journal w).

Definition Date_now : M World Z := fun w =>
  (Ret (clock w (clockReads w)),
   mkWorld (triggers w) (loopTimer w) (isRunning w) (planningFunction w) (lastPlanTime w)
           (planIntervalMs w) (env w) (clock w) (S (clockReads w)) (journal w)).

Definition elizaLogger (lv : Level) (tag : string) (more : list (string * string))
    (text : string) : M World unit := fun w =>
  (Ret tt,
   mkWorld (triggers w) (loopTimer w) (isRunning w) (planningFunction w) (lastPlanTime w)
           (planIntervalMs w) (env w) (clock w) (clockReads w)
           (journal w ++ [mkLog lv tag more text])).

(** [await callback()] *)
Definition call (callback : M Env unit) : M World unit := fun w =>
  let (r, e) := callback (env w) in (r, set_env e w).

Local Open Scope js_scope.

Definition executeTriggers : M World unit :=
  let* ts := gets triggers in
  for_of ts (fun trigger =>
    try_catch (call trigger)
      (fun e => elizaLogger error "trigger_error" [("error", e)]
                            "Error executing trigger")).

(** The test [currentTime - this.lastPlanTime >= this.planIntervalMs]. *)
Definition intervalElapsed (currentTime : Z) (w : World) : bool :=
  (planIntervalMs w <=? currentTime - lastPlanTime w)%Z.

(** The callback given to [setInterval] in [start]: one iteration of the loop. *)
Definition tick : M World unit :=
  try_catch
    (executeTriggers;;
     let* currentTime := Date_now in
     let* planningFn := gets planningFunction in
     let* due := gets (intervalElapsed currentTime) in
     match planningFn with
     | Some planningFn =>
         if due : bool then
           try_catch
             (call planningFn;;
              modify (set_lastPlanTime currentTime);;
              elizaLogger info "planning_executed" [] "Planning function executed")
             (fun e => elizaLogger error "planning_error" [("error", e)]
                                   "Error executing planning function")
         else ret tt
     | None => ret tt
     end)
    (fun e => elizaLogger error "loop_error" [("error", e)]
                          "Unexpected error in autonomous loop").

(** [start(options?)]; an omitted option is [None]. *)
Definition start (loopIntervalMs_opt planIntervalMs_opt : option Z) : M World unit :=
  let loopIntervalMs := default 5000 loopIntervalMs_opt in
  (match planIntervalMs_opt with
   | Some p => if Z.eqb p 0 then ret tt else modify (set_planIntervalMs p)
   | None => ret tt
   end);;
  let* running := gets isRunning in
  if running : bool then
    elizaLogger warn "start_ignored" [] "Autonomous loop already running"
  else
    modify (set_isRunning true);;
    let* time := Date_now in
    modify (set_lastPlanTime time);;
    let* interval := gets planIntervalMs in
    elizaLogger info "start"
                [("loopIntervalMs", pretty loopIntervalMs);
                 ("planIntervalMs", pretty interval)]
                "Autonomous loop started";;
    modify (set_loopTimer (Some loopIntervalMs)).

Definition stop : M World unit :=
  let* running := gets isRunning in
  if running : bool then
    modify (set_loopTimer None);;
    modify (set_isRunning false);;
    modify (set_lastPlanTime 0);;
    elizaLogger info "stop" [] "Autonomous loop stopped"
  else
    elizaLogger warn "stop_ignored" [] "Autonomous loop not running".

Definition registerTrigger (trigger : TriggerCallback) : M World unit :=
  modify (fun w => set_triggers (triggers w ++ [trigger]) w).

Definition setPlanningFunction (planningFn : PlanningFunction) : M World unit :=
  modify (set_planningFunction (Some planningFn));;
  elizaLogger info "set_planning_function" [] "Planning function registered".

End WithEnv.
Arguments World : clear implicits.

Ltac tidy :=
  cbn [triggers loopTimer isRunning planningFunction lastPlanTime planIntervalMs env
       clock clockReads journal set_triggers set_loopTimer set_isRunning
       set_planningFunction set_lastPlanTime set_planIntervalMs set_env].

End Loop.

(** * services/AutonomousLoop.ts: a trigger timer and a planning timer *)

Module TimerLoop.

Section WithEnv.
Context {Env : Type}.

Record World : Type := mkWorld
  { triggers : list (M Env unit);
    planningCallback : option (M Env unit);
    loopTimer : option Z;               (* armed intervals, by their period *)
    planningTimer : option Z;
    triggerInterval : Z;
    planningInterval : Z;
    isRunning : bool;
    env : Env;
    console_out : list string;          (* console.log *)
    console_err : list string }.        (* console.error *)

(** [new AutonomousLoop(triggerInterval = 10000, planningInterval = 60000)] *)
Definition init (triggerInterval_opt planningInterval_opt : option Z) (e : Env) : World :=
  mkWorld [] None None None (default 10000 triggerInterval_opt)
          (default 60000 planningInterval_opt) false e [] [].

Definition set_triggers (ts : list (M Env unit)) (w : World) : World :=
  mkWorld ts (planningCallback w) (loopTimer w) (planningTimer w) (triggerInterval w)
          (planningInterval w) (isRunning w) (env w) (console_out w) (console_err w).

Definition set_planningCallback (f : option (M Env unit)) (w : World) : World :=
  mkWorld (triggers w) f (loopTimer w) (planningTimer w) (triggerInterval w)
          (planningInterval w) (isRunning w) (env w) (console_out w) (console_err w).

Definition set_loopTimer (t : option Z) (w : World) : World :=
  mkWorld (triggers w) (planningCallback w) t (planningTimer w) (triggerInterval w)
          (planningInterval w) (isRunning w) (env w) (console_out w) (console_err w).

Definition set_planningTimer (t : option Z) (w : World) : World :=
  mkWorld (triggers w) (planningCallback w) (loopTimer w) t (triggerInterval w)
          (planningInterval w) (isRunning w) (env w) (console_out w) (console_err w).

Definition set_isRunning (b : bool) (w : World) : World :=
  mkWorld (triggers w) (planningCallback w) (loopTimer w) (planningTimer w)
          (triggerInterval w) (planningInterval w) b (env w) (console_out w)
          (console_err w).

Definition set_env (e : Env) (w : World) : World :=
  mkWorld (triggers w) (planningCallback w) (loopTimer w) (planningTimer w)
          (triggerInterval w) (planningInterval w) (isRunning w) e (console_out w)
          (console_err w).

Definition console_log (line : string) : M World unit := fun w =>
  (Ret tt,
   mkWorld (triggers w) (planningCallback w) (loopTimer w) (planningTimer w)
           (triggerInterval w) (planningInterval w) (isRunning w) (env w)
           (console_out w ++ [line]) (console_err w)).

(** [console.error(label, error)]: the label, a space, the error's message. *)
Definition console_error (label e : string) : M World unit := fun w =>
  (Ret tt,
   mkWorld (triggers w) (planningCallback w) (loopTimer w) (planningTimer w)
           (triggerInterval w) (planningInterval w) (isRunning w) (env w)
           (console_out w) (console_err w ++ [label +:+ " " +:+ e])).

Definition call (callback : M Env unit) : M World unit := fun w =>
  let (r, e) := callback (env w) in (r, set_env e w).

Local Open Scope js_scope.

Definition executeTriggers : M World unit :=
  let* ts := gets triggers in
  for_of ts (fun trigger =>
    try_catch (call trigger)
      (fun e => console_error "Error executing trigger:" e)).

Definition executePlanningCallback : M World unit :=
  let* callback := gets planningCallback in
  match callback with
  | None => ret tt
  | Some planningFn =>
      try_catch (call planningFn)
        (fun e => console_error "Error executing planning callback:" e)
  end.

Definition start : M World unit :=
  let* running := gets isRunning in
  if running : bool then console_log "AutonomousLoop is already running"
  else
    modify (set_isRunning true);;
    console_log "Starting autonomous loop";;
    let* period := gets triggerInterval in
    modify (set_loopTimer (Some period));;
    let* callback := gets planningCallback in
    match callback with
    | Some _ =>
        let* planningPeriod := gets planningInterval in
        modify (set_planningTimer (Some planningPeriod))
    | None => ret tt
    end.

Definition stop : M World unit :=
  let* running := gets isRunning in
  if running : bool then
    console_log "Stopping autonomous loop";;
    modify (set_loopTimer None);;
    modify (set_planningTimer None);;
    modify (set_isRunning false)
  else console_log "AutonomousLoop is not running".

Definition registerTrigger (trigger : M Env unit) : M World unit :=
  modify (fun w => set_triggers (triggers w ++ [trigger]) w).

Definition setPlanningCallback (planningFn : M Env unit) : M World unit :=
  modify (set_planningCallback (Some planningFn));;
  let* running := gets isRunning in
  let* timer := gets planningTimer in
  match running, timer with
  | true, None =>
      let* planningPeriod := gets planningInterval in
      modify (set_planningTimer (Some planningPeriod))
  | _, _ => ret tt
  end.

End WithEnv.
Arguments World : clear implicits.

Ltac tidy :=
  cbn [triggers planningCallback loopTimer planningTimer triggerInterval
       planningInterval isRunning env console_out console_err set_triggers
       set_planningCallback set_loopTimer set_planningTimer set_isRunning set_env].

End TimerLoop.

(** ** Spies

    A spy is the callback [vi.fn()] of the tests: it writes its own number to a
    journal each time it is invoked and then resolves or rejects as told. *)

Definition spy (rejects : nat -> bool) (i : nat) : M (list nat) unit :=
  fun calls =>
    (if rejects i then Throw "Trigger failure" else Ret tt, (calls ++ [i])%list).

Definition spies (rejects : nat -> bool) (n : nat) : list (M (list nat) unit) :=
  map (spy rejects) (seq 0 n).

(** ** Plans and worlds used as concrete instances *)

Module Fixture.

Definition state : Services.State := {| Services.agentName := None |}.

Definition task (name : string) (s : Services.SubtaskStatus) : Services.Subtask.t :=
  Services.Subtask.mk name "Test task" s 5 5 None.

(** One task completed, one pending: nothing has failed. *)
Definition healthy : Services.Plan.t :=
  Services.Plan.mk "test-plan-5"
    [task "task-1" Services.completed; task "task-2" Services.pending]
    Services.plan_in_progress 77 78 None.

(** The plan [P0]: [t1] completed, [t2] failed. *)
Definition P0 : Services.Plan.t :=
  Services.Plan.mk "P0id"
    [task "t1" Services.completed; task "t2" Services.failed]
    Services.plan_in_progress 77 78 None.

(** A replanned plan whose chain started at timestamp [T0]. *)
Definition descendant (T0 : Z) : Services.Plan.t :=
  Services.Plan.mk "plan-500-7"
    [task "t1" Services.failed]
    Services.plan_in_progress 500 501
    (Some (Services.Metadata.mk (Some "plan-400-3") (Some "Failed tasks detected")
                                (Some T0) [])).

Definition world (p : Services.Plan.t) : Services.World :=
  Services.mkWorld [p] (fun n => 1000 + Z.of_nat n) 0 (fun _ => 42) 0 [].

(** A planner holding a generated plan whose two subtasks are completed; the
    clock stands at 1000 throughout. *)
Definition finished : Planner.Plan.t :=
  Planner.Plan.mk "plan-1000" "Default goal"
    [ Planner.Subtask.mk "task-1000-1" "Example subtask 1" Planner.completed None;
      Planner.Subtask.mk "task-1000-2" "Example subtask 2" Planner.completed
                         (Some ["task-1000-1"]) ]
    1000 1000 Planner.active.

Definition planner (p : Planner.Plan.t) (now : nat -> Z) : Planner.World :=
  Planner.mkWorld [p] (Some 0%nat) false now 0 [].

Definition busy_planner (p : Planner.Plan.t) : Planner.World :=
  Planner.mkWorld [p] (Some 0%nat) true (fun _ => 1000) 0 [].

End Fixture.

(** * The public interface of the two loops, call by call

    A timer fires only while it is armed: [timer_fires] runs the callback that
    [start] gave to [setInterval] when [loopTimer] holds a timer and does
    nothing otherwise. *)

Module LoopCalls.
Section WithEnv.
Context {Env : Type}.

Inductive Call : Type :=
| call_start (loopIntervalMs planIntervalMs : option Z)
| call_stop
| call_registerTrigger (trigger : M Env unit)
| call_setPlanningFunction (planningFn : M Env unit)
| timer_fires.

Definition fire : M (Loop.World Env) unit := fun w =>
  match Loop.loopTimer w with
  | Some _ => Loop.tick w
  | None => (Ret tt, w)
  end.

Definition perform (c : Call) (w : Loop.World Env) : Loop.World Env :=
  match c with
  | call_start loopIntervalMs planIntervalMs =>
      snd (Loop.start loopIntervalMs planIntervalMs w)
  | call_stop => snd (Loop.stop w)
  | call_registerTrigger trigger => snd (Loop.registerTrigger trigger w)
  | call_setPlanningFunction planningFn => snd (Loop.setPlanningFunction planningFn w)
  | timer_fires => snd (fire w)
  end.

Definition after (calls : list Call) (w : Loop.World Env) : Loop.World Env :=
  fold_left (fun w' c => perform c w') calls w.

(** The triggers that a sequence of calls registers, in the order of the calls. *)
Fixpoint registered (calls : list Call) : list (M Env unit) :=
  match calls with
  | [] => []
  | call_registerTrigger trigger :: rest => trigger :: registered rest
  | _ :: rest => registered rest
  end.

(** The planning function that a sequence of calls leaves in the slot,
    starting from [current]: the last one set. *)
Fixpoint planning_slot (current : option (M Env unit)) (calls : list Call)
    : option (M Env unit) :=
  match calls with
  | [] => current
  | call_setPlanningFunction planningFn :: rest => planning_slot (Some planningFn) rest
  | _ :: rest => planning_slot current rest
  end.

End WithEnv.
Arguments Call : clear implicits.
End LoopCalls.

Module TimerLoopCalls.
Section WithEnv.
Context {Env : Type}.

Inductive Call : Type :=
| call_start
| call_stop
| call_registerTrigger (trigger : M Env unit)
| call_setPlanningCallback (planningFn : M Env unit)
| trigger_timer_fires
| planning_timer_fires.

Definition fire_triggers : M (TimerLoop.World Env) unit := fun w =>
  match TimerLoop.loopTimer w with
  | Some _ => TimerLoop.executeTriggers w
  | None => (Ret tt, w)
  end.

Definition fire_planning : M (TimerLoop.World Env) unit := fun w =>
  match TimerLoop.planningTimer w with
  | Some _ => TimerLoop.executePlanningCallback w
  | None => (Ret tt, w)
  end.

Definition perform (c : Call) (w : TimerLoop.World Env) : TimerLoop.World Env :=
  match c with
  | call_start => snd (TimerLoop.start w)
  | call_stop => snd (TimerLoop.stop w)
  | call_registerTrigger trigger => snd (TimerLoop.registerTrigger trigger w)
  | call_setPlanningCallback planningFn =>
      snd (TimerLoop.setPlanningCallback planningFn w)
  | trigger_timer_fires => snd (fire_triggers w)
  | planning_timer_fires => snd (fire_planning w)
  end.

Definition after (calls : list Call) (w : TimerLoop.World Env) : TimerLoop.World Env :=
  fold_left (fun w' c => perform c w') calls w.

End WithEnv.
Arguments Call : clear implicits.
End TimerLoopCalls.

(** * services/AutonomousService.ts

    The service owns one single-timer loop and one slot-owning planner and
    registers the planner's [plan] as the loop's planning function. The
    planner is the environment of the loop; the loop and the planner each
    carry their own stream of [Date.now()] results and their own journal. *)

Module Service.

Definition World : Type := Loop.World Planner.World.

(** A method of the planner, called through the service. *)
Definition on_planner {A} (method : M Planner.World A) : M World A := fun w =>
  let (r, planner) := method (Loop.env w) in (r, Loop.set_env planner w).

(** [new AutonomousService(runtime)] *)
Definition create (planner_now loop_now : nat -> Z) : World :=
  snd (Loop.setPlanningFunction Planner.plan
         (Loop.init (Planner.init planner_now) loop_now)).

(** [static async start(runtime)], after the constructor. *)
Definition start : M World unit := Loop.start None None.

Definition stop : M World unit := Loop.stop.

Definition getCurrentPlan : M World (option Planner.ref) :=
  on_planner Planner.getCurrentPlan.

Definition updateSubtaskStatus (subtaskId : string) (status : Planner.SubtaskStatus)
    : M World bool :=
  on_planner (Planner.updateSubtaskStatus subtaskId status).

Definition registerTrigger (trigger : M Planner.World unit) : M World unit :=
  Loop.registerTrigger trigger.

End Service.

(** * Running a sequence step by step *)

Lemma bind_run {W A B} (m : M W A) (k : A -> M W B) (w w' : W) (a : A) :
  m w = (Ret a, w') -> bind m k w = k a w'.
Proof. intros H. unfold bind. rewrite H. reflexivity. Qed.

Lemma bind_throw {W A B} (m : M W A) (k : A -> M W B) (w w' : W) (e : string) :
  m w = (Throw e, w') -> bind m k w = (Throw e, w').
Proof. intros H. unfold bind. rewrite H. reflexivity. Qed.

(** * Facts about services/PlanningModule.ts *)

Module ServicesFacts.
Import Services.

Lemma SubtaskStatus_eqb_eq (a b : SubtaskStatus) :
  SubtaskStatus_eqb a b = true <-> a = b.
Proof. destruct a, b; simpl; split; congruence. Qed.

Lemma hasFailedTasks_true (p : Plan.t) :
  hasFailedTasks p = true <->
  Exists (fun task => Subtask.status task = failed) (Plan.subtasks p).
Proof.
  unfold hasFailedTasks. rewrite existsb_exists, Exists_exists.
  split; intros (task & Hin & Hst); exists task; split; trivial;
    try (apply list_elem_of_In; assumption);
    try (apply list_elem_of_In in Hin; assumption);
    now apply SubtaskStatus_eqb_eq.
Qed.

Lemma hasFailedTasks_false (p : Plan.t) :
  hasFailedTasks p = false <->
  Forall (fun task => Subtask.status task <> failed) (Plan.subtasks p).
Proof.
  rewrite <- not_true_iff_false, hasFailedTasks_true.
  rewrite <- Forall_Exists_neg. reflexivity.
Qed.

(** [generatePlan] always resolves, with the address of a new object; the
    objects that were there stay as they were and nothing is logged. *)
Lemma generatePlan_fresh (state : State) (w : World) :
  exists p w',
    generatePlan state w = (Ret (length (heap w)), w') /\
    heap w' = heap w ++ [p] /\
    console w' = console w /\
    Plan.id p = "plan-" +:+ pretty (clock w (clockReads w)) +:+ "-"
                        +:+ pretty (dice w (diceReads w)) /\
    Plan.status p = plan_created /\
    Plan.metadata p = None /\
    length (Plan.subtasks p) = 3%nat /\
    Forall (fun task => Subtask.status task = pending) (Plan.subtasks p).
Proof.
  cbv [generatePlan new_subtask bind Date_now random_1000 alloc ret
       heap clock clockReads dice diceReads console].
  eexists. eexists. split; [reflexivity |].
  cbn [heap console Plan.id Plan.status Plan.metadata Plan.subtasks length].
  repeat split; repeat constructor.
Qed.

Lemma deref_at (l : ref) (w : World) (p : Plan.t) :
  heap w !! l = Some p -> deref l w = (Ret p, w).
Proof. intros H. unfold deref. rewrite H. reflexivity. Qed.

Lemma set_metadata_at (l : ref) (m : Metadata.t) (w : World) (p : Plan.t) :
  heap w !! l = Some p ->
  set_metadata l m w =
    (Ret tt,
     mkWorld (<[l := Plan.with_metadata m p]> (heap w)) (clock w) (clockReads w)
             (dice w) (diceReads w) (console w)).
Proof. intros H. unfold set_metadata. rewrite H. reflexivity. Qed.

(** What a replacing call does, in full. *)
Lemma replanIfNeeded_replaces (state : State) (w : World) (l : ref) (p : Plan.t) :
  heap w !! l = Some p ->
  hasFailedTasks p = true ->
  exists fresh w',
    replanIfNeeded state (Some l) w = (Ret (length (heap w)), w') /\
    heap w' = heap w ++ [Plan.with_metadata (lineage p) fresh] /\
    Plan.metadata fresh = None /\
    Plan.status fresh = plan_created /\
    Forall (fun task => Subtask.status task = pending) (Plan.subtasks fresh).
Proof.
  intros Hl Hfail.
  assert (Hlt : (l < length (heap w))%nat) by (eapply lookup_lt_Some; eassumption).
  unfold replanIfNeeded.
  erewrite bind_run by (apply deref_at; eassumption).
  erewrite bind_run by reflexivity.
  rewrite Hfail.
  erewrite bind_run by reflexivity.
  match goal with |- context [bind (generatePlan state) _ ?w1] =>
    destruct (generatePlan_fresh state w1)
      as (fresh & w2 & Hgen & Hheap & _ & _ & Hst & Hmeta & _ & Hpend)
  end.
  cbn [heap] in Hheap.
  erewrite bind_run by eassumption.
  assert (Hold : heap w2 !! l = Some p)
    by (rewrite Hheap, lookup_app_l by assumption; assumption).
  assert (Hnew : heap w2 !! length (heap w) = Some fresh)
    by (rewrite Hheap; apply list_lookup_middle; reflexivity).
  erewrite bind_run by (apply deref_at; eassumption).
  erewrite bind_run by (apply set_metadata_at; eassumption).
  exists fresh. eexists. split; [reflexivity |]. cbn [heap].
  repeat split; auto.
  rewrite Hheap, insert_app_r_alt, Nat.sub_diag by reflexivity. reflexivity.
Qed.

(** What a call that keeps the plan does, in full. *)
Lemma replanIfNeeded_keeps (state : State) (w : World) (l : ref) (p : Plan.t) :
  heap w !! l = Some p ->
  hasFailedTasks p = false ->
  replanIfNeeded state (Some l) w =
    (Ret l,
     mkWorld (heap w) (clock w) (clockReads w) (dice w) (diceReads w)
             (console w ++ ["Checking if plan " +:+ Plan.id p +:+ " needs updating";
                            "No replanning needed, continuing with current plan"])).
Proof.
  intros Hl Hfail.
  unfold replanIfNeeded.
  erewrite bind_run by (apply deref_at; eassumption).
  erewrite bind_run by reflexivity.
  rewrite Hfail.
  erewrite bind_run by reflexivity.
  unfold ret. cbn [heap clock clockReads dice diceReads console].
  rewrite <- app_assoc. reflexivity.
Qed.

(** The root timestamp recorded in a replacement is [x || createdAt], for [x]
    the root timestamp of the plan replaced. *)
Lemma replanIfNeeded_lineage (state : State) (w : World) (l : ref) (p : Plan.t) :
  heap w !! l = Some p ->
  hasFailedTasks p = true ->
  exists l' w' p',
    replanIfNeeded state (Some l) w = (Ret l', w') /\
    heap w' !! l' = Some p' /\
    (Plan.metadata p' ≫= Metadata.originalPlanCreatedAt) =
      Some (or_number (Plan.metadata p ≫= Metadata.originalPlanCreatedAt)
                      (Plan.createdAt p)).
Proof.
  intros Hl Hfail.
  destruct (replanIfNeeded_replaces state w l p Hl Hfail)
    as (fresh & w' & Hrun & Hheap & _).
  exists (length (heap w)), w', (Plan.with_metadata (lineage p) fresh).
  split; [assumption |]. split.
  - rewrite Hheap. apply list_lookup_middle. reflexivity.
  - simpl. destruct (Plan.metadata p); reflexivity.
Qed.

(** The four buckets of the tally partition the subtasks. *)
Lemma tally_partitions (p : Plan.t) :
  (count_status pending p + count_status in_progress p
   + count_status completed p + count_status failed p)%nat
  = length (Plan.subtasks p).
Proof.
  unfold count_status. induction (Plan.subtasks p) as [| task rest IH]; [reflexivity |].
  rewrite !filter_cons.
  destruct (Subtask.status task); simpl;
    repeat (destruct (decide _) as [Heq | Hne]; try discriminate Heq;
            try (exfalso; apply Hne; reflexivity));
    simpl; lia.
Qed.



(** A chain whose root timestamp is not [0] keeps it, and a plan without a
    recorded root hands down its own [createdAt]. *)
Lemma replanIfNeeded_keeps_root (state : State) (w : World) (l : ref) (p : Plan.t) :
  heap w !! l = Some p ->
  hasFailedTasks p = true ->
  exists l' w' p',
    replanIfNeeded state (Some l) w = (Ret l', w') /\
    heap w' !! l' = Some p' /\
    (forall T0, T0 <> 0 ->
       (Plan.metadata p ≫= Metadata.originalPlanCreatedAt) = Some T0 ->
       (Plan.metadata p' ≫= Metadata.originalPlanCreatedAt) = Some T0) /\
    ((Plan.metadata p ≫= Metadata.originalPlanCreatedAt) = None ->
     (Plan.metadata p' ≫= Metadata.originalPlanCreatedAt) = Some (Plan.createdAt p)).
Proof.
  intros Hl Hfail.
  destruct (replanIfNeeded_lineage state w l p Hl Hfail) as (l' & w' & p' & Hrun & Hl' & Hroot).
  exists l', w', p'. repeat split; try assumption.
  - intros T0 HT0 Hold. rewrite Hroot, Hold. simpl.
    destruct (Z.eqb_spec T0 0); [contradiction | reflexivity].
  - intros Hold. rewrite Hroot, Hold. reflexivity.
Qed.

(** C2, at the root timestamp [0]. The plan replaced carries
    [metadata.originalPlanCreatedAt = 0] and was itself created at [500]: the
    replacement records [500], its predecessor's [createdAt], and the root
    timestamp [0] of the chain is gone. *)
Theorem C2_zero_root_timestamp_is_replaced :
  exists l' w' p',
    replanIfNeeded Fixture.state (Some 0%nat) (Fixture.world (Fixture.descendant 0))
      = (Ret l', w') /\
    heap w' !! l' = Some p' /\
    (Plan.metadata (Fixture.descendant 0) ≫= Metadata.originalPlanCreatedAt) = Some 0 /\
    Plan.createdAt (Fixture.descendant 0) = 500 /\
    (Plan.metadata p' ≫= Metadata.originalPlanCreatedAt) = Some 500.
Proof.
  destruct (replanIfNeeded_lineage Fixture.state (Fixture.world (Fixture.descendant 0))
              0%nat (Fixture.descendant 0) eq_refl eq_refl)
    as (l' & w' & p' & Hrun & Hl' & Hroot).
  exists l', w', p'. repeat split; assumption.
Qed.

(** C3, as stated, fails: what [monitorPlan] resolves with does not determine
    the tally. Two plans with different tallies give the same result. *)
Lemma C3_tally_is_not_returned :
  ~ exists read : outcome unit -> nat * nat * nat * nat,
      forall (w : World) (l : ref) (p : Plan.t),
        heap w !! l = Some p ->
        read (fst (monitorPlan (Some l) w))
        = (count_status pending p, count_status in_progress p,
           count_status completed p, count_status failed p).
Proof.
  intros [read Hread].
  pose proof (Hread (Fixture.world Fixture.healthy) 0%nat Fixture.healthy eq_refl) as H1.
  pose proof (Hread (Fixture.world Fixture.P0) 0%nat Fixture.P0 eq_refl) as H2.
  vm_compute in H1, H2. rewrite H1 in H2. discriminate H2.
Qed.

(** C3, amended. With no plan [monitorPlan] rejects with
    ['Invalid plan provided'] and changes nothing. With a plan it resolves
    with no value, leaves every plan object as it was, and writes two lines
    to the console: the header and the four counts of subtasks by status. *)
Theorem C3_monitorPlan_reports_in_log (w : World) (l : ref) (p : Plan.t) :
  heap w !! l = Some p ->
  monitorPlan None w = (Throw "Invalid plan provided", w) /\
  exists w',
    monitorPlan (Some l) w = (Ret tt, w') /\
    heap w' = heap w /\
    console w' =
      console w ++
        [ "Monitoring plan " +:+ Plan.id p +:+ " with "
            +:+ pretty (length (Plan.subtasks p)) +:+ " subtasks";
          "Plan status: " +:+ pretty (count_status pending p) +:+ " pending, "
            +:+ pretty (count_status in_progress p) +:+ " in progress, "
            +:+ pretty (count_status completed p) +:+ " completed, "
            +:+ pretty (count_status failed p) +:+ " failed" ].
Proof.
  intros Hl. split; [reflexivity |].
  unfold monitorPlan.
  erewrite bind_run by (apply deref_at; eassumption).
  erewrite bind_run by reflexivity.
  eexists. split; [reflexivity |]. cbn [heap console]. split; [reflexivity |].
  rewrite <- app_assoc. reflexivity.
Qed.

Lemma C3_monitorPlan_reports_in_log_witness :
  monitorPlan None (Fixture.world Fixture.P0)
    = (Throw "Invalid plan provided", Fixture.world Fixture.P0) /\
  exists w',
    monitorPlan (Some 0%nat) (Fixture.world Fixture.P0) = (Ret tt, w') /\
    heap w' = [Fixture.P0] /\
    console w' =
      [ "Monitoring plan P0id with 2 subtasks";
        "Plan status: 0 pending, 0 in progress, 1 completed, 1 failed" ].
Proof.
  exact (C3_monitorPlan_reports_in_log (Fixture.world Fixture.P0) 0%nat Fixture.P0 eq_refl).
Defined.

End ServicesFacts.

(** * Facts about src/PlanningModule.ts *)

Module PlannerFacts.
Import Planner.

Ltac step := erewrite bind_run by reflexivity; tidy.

Lemma planner_status_eqb_eq (a b : SubtaskStatus) :
  SubtaskStatus_eqb a b = true <-> a = b.
Proof. destruct a, b; simpl; split; congruence. Qed.

Lemma journaled_nil (w : World) : journaled [] w = w.
Proof. destruct w. unfold journaled. simpl. rewrite app_nil_r. reflexivity. Qed.

Lemma deref_live (l : ref) (w : World) (p : Plan.t) :
  heap w !! l = Some p -> deref l w = (Ret p, w).
Proof. intros H. unfold deref. rewrite H. reflexivity. Qed.

Lemma update_at (l : ref) (f : Plan.t -> Plan.t) (w : World) (p : Plan.t) :
  heap w !! l = Some p ->
  update l f w = (Ret tt, set_heap (<[l := f p]> (heap w)) w).
Proof. intros H. unfold update. rewrite H. reflexivity. Qed.

Lemma lookup_updated (h : list Plan.t) (l : ref) (p q : Plan.t) :
  h !! l = Some p -> <[l := q]> h !! l = Some q.
Proof. intros H. apply list_lookup_insert_eq. eapply lookup_lt_Some. eassumption. Qed.

Ltac step_deref :=
  erewrite bind_run
    by (apply deref_live; tidy; first [eassumption | eapply lookup_updated; eassumption]);
  tidy.

Ltac step_update :=
  erewrite bind_run
    by (apply update_at; tidy; first [eassumption | eapply lookup_updated; eassumption]);
  tidy.

Lemma planId_field_at (l : ref) (w : World) (p : Plan.t) :
  currentPlan w = Some l -> heap w !! l = Some p ->
  planId_field w = (Ret [("planId", Plan.id p)], w).
Proof.
  intros Hcur Hl. unfold planId_field. step. rewrite Hcur.
  erewrite bind_run by (apply deref_live; eassumption). reflexivity.
Qed.

Lemma isAllSubtasksCompleted_at (l : ref) (w : World) (p : Plan.t) :
  currentPlan w = Some l -> heap w !! l = Some p ->
  isAllSubtasksCompleted w =
    (Ret (forallb (fun task => SubtaskStatus_eqb (Subtask.status task) completed)
                  (Plan.subtasks p)), w).
Proof.
  intros Hcur Hl. unfold isAllSubtasksCompleted. step. rewrite Hcur.
  erewrite bind_run by (apply deref_live; eassumption). reflexivity.
Qed.

(** [generatePlan] always resolves: it allocates an [active] plan with two
    [pending] subtasks and installs it in the slot. *)
Lemma generatePlan_installs (w : World) :
  exists p entries,
    generatePlan w =
      (Ret tt,
       mkWorld (heap w ++ [p]) (Some (length (heap w))) (isPlanningInProgress w)
               (clock w) (6 + clockReads w) (journal w ++ entries)) /\
    Plan.id p = "plan-" +:+ pretty (clock w (clockReads w)) /\
    Plan.status p = active /\
    (exists t1 t2, Plan.subtasks p = [t1; t2] /\
                   Subtask.status t1 = pending /\ Subtask.status t2 = pending).
Proof.
  unfold generatePlan.
  step. unfold try_catch. do 8 step.
  eexists. eexists. split.
  - unfold elizaLogger. tidy. rewrite <- app_assoc. reflexivity.
  - cbn [Plan.id Plan.status Plan.subtasks].
    repeat split. eexists. eexists. repeat split.
Qed.

Lemma completePlan_at (l : ref) (w : World) (p : Plan.t) :
  currentPlan w = Some l -> heap w !! l = Some p ->
  exists entries,
    completePlan w =
      (Ret tt,
       mkWorld (<[l := Plan.with_updatedAt (clock w (clockReads w))
                         (Plan.with_status plan_completed p)]> (heap w))
               None (isPlanningInProgress w) (clock w) (S (clockReads w))
               (journal w ++ entries)).
Proof.
  intros Hcur Hl. unfold completePlan. step. rewrite Hcur.
  step_update. step. step_update. rewrite list_insert_insert_eq.
  step_deref. step.
  eexists. reflexivity.
Qed.

(** The guard: an invocation that finds the flag set logs the skip and
    returns; nothing else changes, the flag included. *)
Lemma plan_with_skips g c (w : World) :
  isPlanningInProgress w = true ->
  plan_with g c w =
    (Ret tt,
     mkWorld (heap w) (currentPlan w) true (clock w) (clockReads w)
       (journal w ++ [mkLog warn "planning_skipped" []
                            "Planning cycle already in progress, skipping"])).
Proof.
  intros Hbusy. unfold plan_with.
  step. rewrite Hbusy. unfold elizaLogger. rewrite Hbusy. reflexivity.
Qed.

(** An invocation that passes the guard resolves and leaves the flag clear,
    whatever its steps do. *)
Lemma plan_with_clears_flag g c (w : World) :
  isPlanningInProgress w = false ->
  exists w', plan_with g c w = (Ret tt, w') /\ isPlanningInProgress w' = false.
Proof.
  intros Hidle. unfold plan_with.
  step. rewrite Hidle. step.
  unfold try_finally, try_catch.
  match goal with |- context [match ?body ?w1 with _ => _ end] =>
    destruct (body w1) as [[[] | e] w2] end.
  - eexists. split; reflexivity.
  - eexists. split; reflexivity.
Qed.

(** With a critical discrepancy, [handleDiscrepancies] marks the plan in the
    slot [abandoned], then generates and installs its successor. *)
Lemma handleDiscrepancies_replans (ds : list string) (l : ref) (w : World) (p : Plan.t) :
  shouldReplan ds = true ->
  currentPlan w = Some l -> heap w !! l = Some p ->
  exists p' entries,
    handleDiscrepancies ds w =
      (Ret tt,
       mkWorld (<[l := Plan.with_updatedAt (clock w (clockReads w))
                         (Plan.with_status abandoned p)]> (heap w) ++ [p'])
               (Some (length (heap w))) (isPlanningInProgress w)
               (clock w) (7 + clockReads w) (journal w ++ entries)) /\
    Plan.id p' = "plan-" +:+ pretty (clock w (S (clockReads w))) /\
    Plan.status p' = active /\
    (exists t1 t2, Plan.subtasks p' = [t1; t2] /\
                   Subtask.status t1 = pending /\ Subtask.status t2 = pending).
Proof.
  intros Hcrit Hcur Hl. unfold handleDiscrepancies, handleDiscrepancies_with.
  erewrite bind_run by (eapply planId_field_at; eassumption).
  step. rewrite Hcrit. step. rewrite Hcur.
  erewrite bind_run; cycle 1.
  { step_update. step.
    erewrite update_at by (tidy; eapply lookup_updated; eassumption). tidy.
    rewrite list_insert_insert_eq. reflexivity. }
  match goal with |- context [generatePlan ?w1] =>
    destruct (generatePlan_installs w1) as (p' & es & -> & Hid & Hst & Hsub) end.
  tidy. rewrite length_insert.
  exists p'. eexists. split; [| auto].
  rewrite <- app_assoc. reflexivity.
Qed.

(** Without a critical discrepancy, [handleDiscrepancies] only logs. *)
Lemma handleDiscrepancies_tolerates g (ds : list string) (l : ref) (w : World) (p : Plan.t) :
  shouldReplan ds = false ->
  currentPlan w = Some l -> heap w !! l = Some p ->
  exists entries, handleDiscrepancies_with g ds w = (Ret tt, journaled entries w).
Proof.
  intros Hcrit Hcur Hl. unfold handleDiscrepancies_with.
  erewrite bind_run by (eapply planId_field_at; eassumption).
  step. rewrite Hcrit. eexists. reflexivity.
Qed.

(** A plan as [generatePlan] makes it is not complete. *)
Lemma fresh_not_completed (p : Plan.t) :
  (exists t1 t2, Plan.subtasks p = [t1; t2] /\
                 Subtask.status t1 = pending /\ Subtask.status t2 = pending) ->
  forallb (fun task => SubtaskStatus_eqb (Subtask.status task) completed)
          (Plan.subtasks p) = false.
Proof. intros (t1 & t2 & -> & H1 & H2). simpl. rewrite H1. reflexivity. Qed.

Lemma shouldReplan_nonempty (ds : list string) :
  shouldReplan ds = true -> (0 <? length ds)%nat = true.
Proof. destruct ds; [discriminate | reflexivity]. Qed.

(** ** One planning cycle over a plan in the slot

    The drift check is any method that resolves to [ds] and only logs: the
    method of the source (with [ds] empty) and the spies of the tests. *)
Section Cycle.
Variable check : M World (list string).
Variable ds : list string.
Hypothesis check_resolves :
  forall (w : World) (l : ref) (p : Plan.t),
    currentPlan w = Some l -> heap w !! l = Some p ->
    exists entries, check w = (Ret ds, journaled entries w).

Lemma plan_cycle (w : World) (l : ref) (p : Plan.t) :
  isPlanningInProgress w = false ->
  currentPlan w = Some l ->
  heap w !! l = Some p ->
  exists w',
    plan_with generatePlan check w = (Ret tt, w') /\
    isPlanningInProgress w' = false /\
    clock w' = clock w /\
    ((shouldReplan ds = true /\
      exists p',
        heap w' = <[l := Plan.with_updatedAt (clock w (clockReads w))
                            (Plan.with_status abandoned p)]> (heap w) ++ [p'] /\
        currentPlan w' = Some (length (heap w)) /\
        Plan.status p' = active /\
        Plan.id p' = "plan-" +:+ pretty (clock w (S (clockReads w)))) \/
     (shouldReplan ds = false /\
      forallb (fun task => SubtaskStatus_eqb (Subtask.status task) completed)
              (Plan.subtasks p) = true /\
      heap w' = <[l := Plan.with_updatedAt (clock w (clockReads w))
                          (Plan.with_status plan_completed p)]> (heap w) /\
      currentPlan w' = None) \/
     (shouldReplan ds = false /\
      forallb (fun task => SubtaskStatus_eqb (Subtask.status task) completed)
              (Plan.subtasks p) = false /\
      heap w' = heap w /\
      currentPlan w' = Some l)).
Proof.
  intros Hidle Hcur Hl. unfold plan_with.
  step. rewrite Hidle. step.
  unfold try_finally, try_catch.
  step. rewrite Hcur.
  match goal with |- context [bind check _ ?w1] =>
    destruct (check_resolves w1 l p Hcur Hl) as [es Hcheck] end.
  erewrite bind_run by exact Hcheck. tidy.
  destruct (shouldReplan ds) eqn:Hcrit.
  - rewrite (shouldReplan_nonempty ds Hcrit).
    match goal with |- context [bind (handleDiscrepancies_with generatePlan ds) _ ?w1] =>
      destruct (handleDiscrepancies_replans ds l w1 p Hcrit Hcur Hl)
        as (p' & es' & Hhandle & Hid & Hst & Hsub) end.
    unfold handleDiscrepancies in Hhandle. tidy_in Hhandle.
    erewrite bind_run by exact Hhandle.
    step.
    erewrite bind_run; cycle 1.
    { eapply isAllSubtasksCompleted_at; tidy; [reflexivity |].
      rewrite <- (length_insert (heap w) l
                    (Plan.with_updatedAt (clock w (clockReads w))
                       (Plan.with_status abandoned p))).
      apply list_lookup_middle. reflexivity. }
    rewrite (fresh_not_completed p' Hsub).
    eexists. split; [reflexivity |]. tidy.
    split; [reflexivity |]. split; [reflexivity |].
    left. split; [reflexivity |]. exists p'. auto.
  - assert (Hdrift : exists es',
              (if (0 <? length ds)%nat
               then handleDiscrepancies_with generatePlan ds else ret tt)
                (journaled es (set_isPlanningInProgress true w))
              = (Ret tt, journaled es' (journaled es (set_isPlanningInProgress true w)))).
    { destruct (0 <? length ds)%nat.
      - eapply handleDiscrepancies_tolerates; eassumption.
      - exists []. rewrite journaled_nil. reflexivity. }
    destruct Hdrift as [es' Hdrift]. tidy_in Hdrift.
    erewrite bind_run by exact Hdrift.
    step. rewrite Hcur.
    erewrite bind_run by (eapply isAllSubtasksCompleted_at; tidy; eassumption).
    destruct (forallb _ (Plan.subtasks p)) eqn:Hall.
    + match goal with |- context [completePlan ?w1] =>
        destruct (completePlan_at l w1 p Hcur Hl) as [es'' ->] end.
      tidy. eexists. split; [reflexivity |]. tidy.
      split; [reflexivity |]. split; [reflexivity |].
      right. left. auto.
    + eexists. split; [reflexivity |]. tidy.
      split; [reflexivity |]. split; [reflexivity |].
      right. right. auto.
Qed.

End Cycle.

Lemma checkPlanProgress_resolves (w : World) (l : ref) (p : Plan.t) :
  currentPlan w = Some l -> heap w !! l = Some p ->
  exists entries, checkPlanProgress w = (Ret [], journaled entries w).
Proof.
  intros Hcur Hl. unfold checkPlanProgress. step. rewrite Hcur.
  step_deref. step. eexists. reflexivity.
Qed.

Lemma spy_resolves (ds : list string) (w : World) (l : ref) (p : Plan.t) :
  currentPlan w = Some l -> heap w !! l = Some p ->
  exists entries, ret ds w = (Ret ds, journaled entries w).
Proof. intros _ _. exists []. rewrite journaled_nil. reflexivity. Qed.

(** A cycle that finds the slot empty generates a plan and installs it. *)
Lemma plan_generates check (w : World) :
  isPlanningInProgress w = false ->
  currentPlan w = None ->
  exists p' w',
    plan_with generatePlan check w = (Ret tt, w') /\
    isPlanningInProgress w' = false /\
    heap w' = heap w ++ [p'] /\
    currentPlan w' = Some (length (heap w)) /\
    Plan.status p' = active /\
    Plan.id p' = "plan-" +:+ pretty (clock w (clockReads w)).
Proof.
  intros Hidle Hcur. unfold plan_with.
  step. rewrite Hidle. step.
  unfold try_finally, try_catch.
  step. rewrite Hcur.
  match goal with |- context [generatePlan ?w1] =>
    destruct (generatePlan_installs w1) as (p' & es & -> & Hid & Hst & Hsub) end.
  tidy. exists p'. eexists. split; [reflexivity |]. tidy. auto.
Qed.

(** ** Heaps that keep the subtasks *)

Lemma keeps_subtasks_refl (h : list Plan.t) : keeps_subtasks h h.
Proof. intros l p Hl. exists p. auto. Qed.

Lemma keeps_subtasks_alloc (h h' : list Plan.t) (p : Plan.t) :
  keeps_subtasks h h' -> keeps_subtasks h (h' ++ [p]).
Proof.
  intros Hk l q Hl. destruct (Hk l q Hl) as (q' & Hq' & Hsub).
  exists q'. split; [| assumption]. apply lookup_app_l_Some. assumption.
Qed.

Lemma keeps_subtasks_assign (h : list Plan.t) (l : ref) (p q : Plan.t) :
  h !! l = Some p -> Plan.subtasks q = Plan.subtasks p ->
  keeps_subtasks h (<[l := q]> h).
Proof.
  intros Hl Hsub l0 p0 Hl0. destruct (decide (l = l0)) as [<- | Hne].
  - exists q. split; [eapply lookup_updated; eassumption |]. congruence.
  - exists p0. split; [| reflexivity]. rewrite list_lookup_insert_ne; assumption.
Qed.

(** ** [updateSubtaskStatus], case by case *)

Lemma updateSubtaskStatus_no_plan (subtaskId : string) (status : SubtaskStatus) (w : World) :
  currentPlan w = None ->
  updateSubtaskStatus subtaskId status w = (Ret false, w).
Proof. intros Hcur. unfold updateSubtaskStatus. step. rewrite Hcur. reflexivity. Qed.

Lemma updateSubtaskStatus_missing (subtaskId : string) (status : SubtaskStatus)
    (l : ref) (w : World) (p : Plan.t) :
  currentPlan w = Some l -> heap w !! l = Some p ->
  find (fun task => String.eqb (Subtask.id task) subtaskId) (Plan.subtasks p) = None ->
  updateSubtaskStatus subtaskId status w = (Ret false, w).
Proof.
  intros Hcur Hl Hfind. unfold updateSubtaskStatus. step. rewrite Hcur.
  step_deref. rewrite Hfind. reflexivity.
Qed.

Lemma updateSubtaskStatus_found (subtaskId : string) (status : SubtaskStatus)
    (l : ref) (w : World) (p : Plan.t) (task : Subtask.t) :
  currentPlan w = Some l -> heap w !! l = Some p ->
  find (fun task => String.eqb (Subtask.id task) subtaskId) (Plan.subtasks p) = Some task ->
  exists entries,
    updateSubtaskStatus subtaskId status w =
      (Ret true,
       mkWorld (<[l := Plan.mk (Plan.id p) (Plan.goal p)
                         (assign_first subtaskId (Subtask.with_status status)
                                       (Plan.subtasks p))
                         (Plan.createdAt p) (clock w (clockReads w)) (Plan.status p)]>
                  (heap w))
               (Some l) (isPlanningInProgress w) (clock w) (S (clockReads w))
               (journal w ++ entries)).
Proof.
  intros Hcur Hl Hfind. unfold updateSubtaskStatus. step. rewrite Hcur.
  step_deref. rewrite Hfind.
  step_update. step. step_update. rewrite list_insert_insert_eq.
  step_deref. step. rewrite Hcur.
  eexists. reflexivity.
Qed.

Lemma find_none_iff (subtaskId : string) (tasks : list Subtask.t) :
  find (fun task => String.eqb (Subtask.id task) subtaskId) tasks = None <->
  Forall (fun task => Subtask.id task <> subtaskId) tasks.
Proof.
  induction tasks as [| task rest IH]; simpl.
  - split; [constructor | reflexivity].
  - destruct (String.eqb_spec (Subtask.id task) subtaskId) as [Heq | Hne].
    + split; [discriminate |]. intros H. inversion H; subst. contradiction.
    + rewrite IH. split; [constructor; assumption |].
      intros H. inversion H; assumption.
Qed.

(** The task that [find] returns is the first with that id, and it is the one
    that [assign_first] replaces. *)
Lemma find_first (subtaskId : string) (f : Subtask.t -> Subtask.t)
    (before after : list Subtask.t) (task : Subtask.t) :
  Forall (fun t => Subtask.id t <> subtaskId) before ->
  Subtask.id task = subtaskId ->
  find (fun t => String.eqb (Subtask.id t) subtaskId) (before ++ task :: after) = Some task /\
  assign_first subtaskId f (before ++ task :: after) = before ++ f task :: after.
Proof.
  intros Hbefore Hid. induction Hbefore as [| t rest Hne _ IH]; simpl.
  - rewrite Hid, String.eqb_refl. auto.
  - destruct (String.eqb_spec (Subtask.id t) subtaskId) as [Heq | _]; [contradiction |].
    destruct IH as [-> ->]. auto.
Qed.

(** ** The slot and the subtasks after each public call *)

Lemma slot_current_journaled (w w' : World) :
  heap w' = heap w -> currentPlan w' = currentPlan w ->
  slot_current w -> slot_current w'.
Proof. unfold slot_current. intros -> ->. auto. Qed.

Lemma is_current_active (s : PlanStatus) : is_current s = true -> s = active.
Proof. destruct s; simpl; congruence. Qed.

Lemma plan_effect (check : M World (list string)) (ds : list string) (w : World) :
  (forall (w : World) (l : ref) (p : Plan.t),
     currentPlan w = Some l -> heap w !! l = Some p ->
     exists entries, check w = (Ret ds, journaled entries w)) ->
  slot_current w ->
  slot_current (snd (plan_with generatePlan check w)) /\
  keeps_subtasks (heap w) (heap (snd (plan_with generatePlan check w))).
Proof.
  intros Hcheck Hslot.
  destruct (isPlanningInProgress w) eqn:Hflag.
  - rewrite plan_with_skips by assumption. simpl. split.
    + eapply slot_current_journaled; [| | eassumption]; reflexivity.
    + apply keeps_subtasks_refl.
  - unfold slot_current in Hslot. destruct (currentPlan w) as [l |] eqn:Hcur.
    + destruct Hslot as (p & Hl & Hactive).
      destruct (plan_cycle check ds Hcheck w l p Hflag Hcur Hl)
        as (w' & -> & _ & _ & Hcases). simpl.
      pose proof (lookup_lt_Some _ _ _ Hl) as Hlt.
      destruct Hcases as [(_ & p' & Hheap & Hcur' & Hst & _)
                         | [(_ & _ & Hheap & Hcur') | (_ & _ & Hheap & Hcur')]];
        unfold slot_current; rewrite Hcur', Hheap.
      * split.
        -- exists p'. split.
           ++ rewrite <- (length_insert (heap w) l
                           (Plan.with_updatedAt (clock w (clockReads w))
                              (Plan.with_status abandoned p))).
              apply list_lookup_middle. reflexivity.
           ++ rewrite Hst. reflexivity.
        -- apply keeps_subtasks_alloc.
           eapply keeps_subtasks_assign; [eassumption | reflexivity].
      * split.
        -- exact I.
        -- eapply keeps_subtasks_assign; [eassumption | reflexivity].
      * split.
        -- exists p. auto.
        -- apply keeps_subtasks_refl.
    + destruct (plan_generates check w Hflag Hcur)
        as (p' & w' & -> & _ & Hheap & Hcur' & Hst & _). simpl.
      unfold slot_current. rewrite Hcur', Hheap. split.
      * exists p'. split.
        -- apply list_lookup_middle. reflexivity.
        -- rewrite Hst. reflexivity.
      * apply keeps_subtasks_alloc, keeps_subtasks_refl.
Qed.

Lemma slot_current_perform (c : Call) (w : World) :
  slot_current w -> slot_current (perform c w).
Proof.
  intros Hslot. destruct c as [| ds | | subtaskId status]; simpl.
  - apply (plan_effect checkPlanProgress [] w checkPlanProgress_resolves Hslot).
  - apply (plan_effect (ret ds) ds w (spy_resolves ds) Hslot).
  - assumption.
  - pose proof Hslot as Hslot'. unfold slot_current in Hslot.
    destruct (currentPlan w) as [l |] eqn:Hcur.
    + destruct Hslot as (p & Hl & Hactive).
      destruct (find (fun task => String.eqb (Subtask.id task) subtaskId)
                     (Plan.subtasks p)) as [task |] eqn:Hfind.
      * destruct (updateSubtaskStatus_found subtaskId status l w p task Hcur Hl Hfind)
          as [es ->]. simpl.
        unfold slot_current. tidy. eexists. split.
        -- eapply lookup_updated. eassumption.
        -- assumption.
      * rewrite (updateSubtaskStatus_missing subtaskId status l w p Hcur Hl Hfind).
        assumption.
    + rewrite (updateSubtaskStatus_no_plan subtaskId status w Hcur). assumption.
Qed.

Lemma keeps_subtasks_perform (c : Call) (w : World) :
  slot_current w -> is_mutator c = false ->
  keeps_subtasks (heap w) (heap (perform c w)).
Proof.
  intros Hslot Hc. destruct c as [| ds | | subtaskId status]; simpl.
  - apply (plan_effect checkPlanProgress [] w checkPlanProgress_resolves Hslot).
  - apply (plan_effect (ret ds) ds w (spy_resolves ds) Hslot).
  - apply keeps_subtasks_refl.
  - discriminate Hc.
Qed.

Lemma slot_current_after (calls : list Call) (w : World) :
  slot_current w -> slot_current (after calls w).
Proof.
  revert w. induction calls as [| c rest IH]; intros w Hslot; simpl.
  - assumption.
  - apply IH, slot_current_perform, Hslot.
Qed.

(** A cycle over a finished plan marks it [completed] and empties the slot; the
    cycle after that generates a new object, whose id is made of the clock
    reading at that moment and nothing else. *)
Lemma plan_completes_then_regenerates (w : World) (l : ref) (p : Plan.t) :
  isPlanningInProgress w = false ->
  currentPlan w = Some l ->
  heap w !! l = Some p ->
  Forall (fun task => Subtask.status task = completed) (Plan.subtasks p) ->
  exists w1 w2 l' p',
    plan w = (Ret tt, w1) /\
    (Plan.status <$> heap w1 !! l) = Some plan_completed /\
    currentPlan w1 = None /\
    plan w1 = (Ret tt, w2) /\
    currentPlan w2 = Some l' /\
    l' <> l /\
    heap w2 !! l' = Some p' /\
    Plan.status p' = active /\
    Plan.id p' = "plan-" +:+ pretty (clock w1 (clockReads w1)).
Proof.
  intros Hidle Hcur Hl Hdone.
  assert (Hall : forallb (fun task => SubtaskStatus_eqb (Subtask.status task) completed)
                         (Plan.subtasks p) = true).
  { apply forallb_forall. intros task Hin.
    apply planner_status_eqb_eq.
    rewrite Forall_forall in Hdone. apply Hdone, list_elem_of_In, Hin. }
  destruct (plan_cycle checkPlanProgress [] checkPlanProgress_resolves w l p Hidle Hcur Hl)
    as (w1 & Hrun1 & Hidle1 & _ & Hcases).
  destruct Hcases as [(Hcrit & _) | [(_ & _ & Hheap1 & Hcur1) | (_ & Hnot & _)]];
    [discriminate Hcrit | | congruence].
  destruct (plan_generates checkPlanProgress w1 Hidle1 Hcur1)
    as (p' & w2 & Hrun2 & _ & Hheap2 & Hcur2 & Hst & Hid).
  pose proof (lookup_lt_Some _ _ _ Hl) as Hlt.
  exists w1, w2, (length (heap w1)), p'.
  repeat split; try assumption.
  - rewrite Hheap1. erewrite lookup_updated by eassumption. reflexivity.
  - rewrite Hheap1, length_insert. lia.
  - rewrite Hheap2. apply list_lookup_middle. reflexivity.
Qed.

(** Two generated ids are equal exactly when the clock readings are. *)
Lemma generated_ids_equal (t t' : Z) :
  "plan-" +:+ pretty t = "plan-" +:+ pretty t' <-> t = t'.
Proof.
  split; [| intros ->; reflexivity].
  simpl. intros H. injection H as H. exact (inj pretty t t' H).
Qed.

(** C4, as stated, fails for [replanIfNeeded]: the plan [P0], with a failed
    subtask, is replaced and its status is still [in_progress]. *)
Lemma C4_replaced_plan_is_not_abandoned :
  exists l' w',
    Services.replanIfNeeded Fixture.state (Some 0%nat) (Fixture.world Fixture.P0)
      = (Ret l', w') /\
    l' <> 0%nat /\
    (Services.Plan.status <$> Services.heap w' !! 0%nat) = Some Services.plan_in_progress /\
    (Services.PlanStatus_name <$> (Services.Plan.status <$> Services.heap w' !! 0%nat))
      <> Some "abandoned".
Proof.
  destruct (ServicesFacts.replanIfNeeded_replaces Fixture.state
              (Fixture.world Fixture.P0) 0%nat Fixture.P0 eq_refl eq_refl)
    as (fresh & w' & Hrun & Hheap & _).
  exists 1%nat, w'. rewrite Hheap. repeat split; [assumption | discriminate | discriminate].
Qed.



(** C5, as stated, fails: no reading of a subtask gives the time of the call
    that last updated it. Two successful updates at different times leave the
    same subtask behind. *)
Lemma C5_subtask_has_no_updatedAt :
  ~ exists updatedAt : Subtask.t -> Z,
      forall (w w' : World) (l : ref) (p' : Plan.t) (subtaskId : string)
             (status : SubtaskStatus) (task : Subtask.t),
        currentPlan w = Some l ->
        updateSubtaskStatus subtaskId status w = (Ret true, w') ->
        heap w' !! l = Some p' ->
        find (fun t => String.eqb (Subtask.id t) subtaskId) (Plan.subtasks p') = Some task ->
        updatedAt task = clock w (clockReads w).
Proof.
  intros [updatedAt Hbump].
  pose proof (Hbump (Fixture.planner Fixture.finished (fun _ => 1000)) _ 0%nat _
                    "task-1000-1" in_progress _ eq_refl eq_refl eq_refl eq_refl) as H1.
  pose proof (Hbump (Fixture.planner Fixture.finished (fun _ => 2000)) _ 0%nat _
                    "task-1000-1" in_progress _ eq_refl eq_refl eq_refl eq_refl) as H2.
  simpl in H1, H2. rewrite H1 in H2. discriminate H2.
Qed.

(** C5, amended. [updateSubtaskStatus] resolves to [false] and changes nothing
    when the slot is empty or no subtask of the plan in the slot has the id.
    Otherwise it resolves to [true]: the first subtask with the id gets the
    new status and is otherwise as it was, and the plan's [updatedAt] becomes
    the reading of the clock; the slot does not change. No other public call
    changes the subtasks of any plan. *)
Theorem C5_updateSubtaskStatus (subtaskId : string) (status : SubtaskStatus) (w : World) :
  (currentPlan w = None ->
   updateSubtaskStatus subtaskId status w = (Ret false, w)) /\
  (forall (l : ref) (p : Plan.t),
     currentPlan w = Some l -> heap w !! l = Some p ->
     Forall (fun task => Subtask.id task <> subtaskId) (Plan.subtasks p) ->
     updateSubtaskStatus subtaskId status w = (Ret false, w)) /\
  (forall (l : ref) (p : Plan.t) (before rest : list Subtask.t) (task : Subtask.t),
     currentPlan w = Some l -> heap w !! l = Some p ->
     Plan.subtasks p = before ++ task :: rest ->
     Forall (fun t => Subtask.id t <> subtaskId) before ->
     Subtask.id task = subtaskId ->
     exists w',
       updateSubtaskStatus subtaskId status w = (Ret true, w') /\
       currentPlan w' = Some l /\
       isPlanningInProgress w' = isPlanningInProgress w /\
       heap w' =
         <[l := Plan.mk (Plan.id p) (Plan.goal p)
                  (before
                     ++ Subtask.mk (Subtask.id task) (Subtask.description task) status
                                   (Subtask.dependencies task)
                     :: rest)
                  (Plan.createdAt p) (clock w (clockReads w)) (Plan.status p)]>
           (heap w)) /\
  (forall c : Call,
     slot_current w -> is_mutator c = false ->
     keeps_subtasks (heap w) (heap (perform c w))).
Proof.
  split; [| split; [| split]].
  - apply updateSubtaskStatus_no_plan.
  - intros l p Hcur Hl Hnone.
    apply (updateSubtaskStatus_missing subtaskId status l w p Hcur Hl).
    apply find_none_iff. assumption.
  - intros l p before rest task Hcur Hl Hsplit Hbefore Hid.
    destruct (find_first subtaskId (Subtask.with_status status) before rest task
                Hbefore Hid) as [Hfind Hassign].
    rewrite <- Hsplit in Hfind, Hassign.
    destruct (updateSubtaskStatus_found subtaskId status l w p task Hcur Hl Hfind)
      as [es Hrun].
    eexists. split; [exact Hrun |]. tidy. rewrite Hassign. auto.
  - intros c. apply keeps_subtasks_perform.
Qed.

Lemma C5_updateSubtaskStatus_witness :
  updateSubtaskStatus "task-1000-2" failed (init (fun _ => 1000))
    = (Ret false, init (fun _ => 1000)) /\
  updateSubtaskStatus "non-existent-id" completed
      (Fixture.planner Fixture.finished (fun _ => 2000))
    = (Ret false, Fixture.planner Fixture.finished (fun _ => 2000)) /\
  (exists w',
     updateSubtaskStatus "task-1000-2" failed
         (Fixture.planner Fixture.finished (fun _ => 2000)) = (Ret true, w') /\
     currentPlan w' = Some 0%nat /\
     isPlanningInProgress w' = false /\
     heap w' =
       [ Plan.mk "plan-1000" "Default goal"
           [ Subtask.mk "task-1000-1" "Example subtask 1" completed None;
             Subtask.mk "task-1000-2" "Example subtask 2" failed (Some ["task-1000-1"]) ]
           1000 2000 active ]) /\
  keeps_subtasks [Fixture.finished]
    (heap (perform call_plan (Fixture.planner Fixture.finished (fun _ => 2000)))).
Proof.
  split; [| split; [| split]].
  - apply (proj1 (C5_updateSubtaskStatus "task-1000-2" failed (init (fun _ => 1000)))).
    reflexivity.
  - apply (proj1 (proj2 (C5_updateSubtaskStatus "non-existent-id" completed
                           (Fixture.planner Fixture.finished (fun _ => 2000))))
             0%nat Fixture.finished eq_refl eq_refl).
    repeat constructor; discriminate.
  - apply (proj1 (proj2 (proj2 (C5_updateSubtaskStatus "task-1000-2" failed
                                  (Fixture.planner Fixture.finished (fun _ => 2000)))))
             0%nat Fixture.finished
             [Subtask.mk "task-1000-1" "Example subtask 1" completed None] []
             (Subtask.mk "task-1000-2" "Example subtask 2" completed (Some ["task-1000-1"]))
             eq_refl eq_refl eq_refl).
    + repeat constructor; discriminate.
    + reflexivity.
  - apply (proj2 (proj2 (proj2 (C5_updateSubtaskStatus "" pending
                                  (Fixture.planner Fixture.finished (fun _ => 2000)))))
             call_plan).
    + exists Fixture.finished. split; reflexivity.
    + reflexivity.
Defined.

(** C6, after a cycle within the same millisecond. The planner holds the
    finished plan ["plan-1000"] and the clock stands at 1000. One cycle marks
    the plan [completed] and empties the slot; the next cycle installs a new
    object, and its id is ["plan-1000"] again. *)
Theorem C6_next_plan_repeats_the_id :
  let w0 := Fixture.planner Fixture.finished (fun _ => 1000) in
  let w1 := snd (plan w0) in
  let w2 := snd (plan w1) in
  (Plan.id <$> heap w0 !! 0%nat) = Some "plan-1000" /\
  (Plan.status <$> heap w1 !! 0%nat) = Some plan_completed /\
  currentPlan w1 = None /\
  currentPlan w2 = Some 1%nat /\
  (Plan.status <$> heap w2 !! 1%nat) = Some active /\
  (Plan.id <$> heap w2 !! 1%nat) = Some "plan-1000".
Proof. vm_compute. repeat split. Qed.

(** ** Steps of a cycle in flight *)

Lemma bind_agree {W A B} (m : M W A) (k k' : A -> M W B) (w : W) :
  (forall a w', m w = (Ret a, w') -> k a w' = k' a w') ->
  bind m k w = bind m k' w.
Proof.
  intros H. unfold bind. destruct (m w) as [[a | e] w']; [apply H |]; reflexivity.
Qed.

Lemma bind_agree_both {W A B} (m m' : M W A) (k k' : A -> M W B) (w : W) :
  m' w = m w ->
  (forall a w', m w = (Ret a, w') -> k' a w' = k a w') ->
  bind m' k' w = bind m k w.
Proof.
  intros Hm H. unfold bind. rewrite Hm.
  destruct (m w) as [[a | e] w']; [apply H |]; reflexivity.
Qed.

Lemma bind_agree_l {W A B} (m m' : M W A) (k : A -> M W B) (w : W) :
  m w = m' w -> bind m k w = bind m' k w.
Proof. intros H. unfold bind. rewrite H. reflexivity. Qed.

Lemma planId_field_world (w : World) : snd (planId_field w) = w.
Proof.
  unfold planId_field, bind, gets, deref, ret.
  destruct (currentPlan w) as [l |]; [| reflexivity].
  destruct (heap w !! l); reflexivity.
Qed.

(** Marking a plan [abandoned] does not touch the flag. *)
Lemma abandon_keeps_flag (cur : option ref) (w : World) :
  isPlanningInProgress
    (snd (match cur with
          | Some l =>
              (update l (Plan.with_status abandoned);;
               let* time := Date_now in
               update l (Plan.with_updatedAt time))%js
          | None => ret tt
          end w))
  = isPlanningInProgress w.
Proof.
  destruct cur as [l |]; [| reflexivity].
  unfold bind, update, Date_now, ret.
  destruct (heap w !! l) as [p |]; [| reflexivity]. tidy.
  match goal with |- context [match ?x with Some _ => _ | None => _ end] =>
    destruct x end; reflexivity.
Qed.

(** [handleDiscrepancies] runs the generation step only with the flag as it
    found it: generation steps that differ where the flag is clear give the
    same result when it is set. *)
Lemma handleDiscrepancies_with_agree (g g' : M World unit) (ds : list string) (v : World) :
  isPlanningInProgress v = true ->
  same_while_flag_set g' g ->
  handleDiscrepancies_with g' ds v = handleDiscrepancies_with g ds v.
Proof.
  intros Hset Hg. unfold handleDiscrepancies_with.
  apply bind_agree. intros idField v1 H1.
  assert (Hv1 : v1 = v) by (rewrite <- (planId_field_world v), H1; reflexivity).
  subst v1. apply bind_agree. intros [] v2 H2.
  unfold elizaLogger in H2. injection H2 as <-.
  destruct (shouldReplan ds); [| reflexivity].
  apply bind_agree. intros cur v3 H3. unfold gets in H3. injection H3 as <- <-.
  apply bind_agree. intros [] v4 H4. apply Hg.
  apply (f_equal snd) in H4. cbn [snd] in H4. rewrite <- H4.
  rewrite abandon_keeps_flag. exact Hset.
Qed.

(** The steps of a cycle are run only with the flag set. *)
Lemma plan_with_agree (g g' : M World unit) (c c' : M World (list string)) (w : World) :
  isPlanningInProgress w = false ->
  keeps_flag_set c ->
  same_while_flag_set g' g ->
  same_while_flag_set c' c ->
  plan_with g' c' w = plan_with g c w.
Proof.
  intros Hidle Hc Hg Hcc. unfold plan_with.
  apply bind_agree. intros busy v0 H0. unfold gets in H0. injection H0 as <- <-.
  rewrite Hidle. apply bind_agree. intros [] v1 H1.
  unfold modify in H1. injection H1 as <-.
  unfold try_finally, try_catch.
  match goal with
  | |- (let (_, _) := match ?b1 ?v with _ => _ end in _)
       = (let (_, _) := match ?b2 ?v with _ => _ end in _) =>
      assert (E : b1 v = b2 v); [| rewrite E; reflexivity]
  end.
  apply bind_agree. intros cur v2 H2. unfold gets in H2. injection H2 as <- <-.
  tidy. destruct (currentPlan w) as [l |]; [| apply Hg; reflexivity].
  apply bind_agree_both; [apply Hcc; reflexivity |]. intros ds v3 H3.
  assert (Hset : isPlanningInProgress v3 = true).
  { apply (f_equal snd) in H3. cbn [snd] in H3. rewrite <- H3. apply Hc. reflexivity. }
  apply bind_agree_l.
  destruct (0 <? length ds)%nat; [| reflexivity].
  apply handleDiscrepancies_with_agree; assumption.
Qed.


(** An invocation made with the flag set is the logged skip. *)
Lemma plan_with_skipped g c (v : World) :
  isPlanningInProgress v = true -> plan_with g c v = skipped v.
Proof.
  intros Hset. rewrite plan_with_skips by assumption.
  unfold skipped, elizaLogger. rewrite Hset. reflexivity.
Qed.

Lemma skipped_flag (v : World) :
  isPlanningInProgress (snd (skipped v)) = isPlanningInProgress v.
Proof. reflexivity. Qed.

Lemma interleaved_skips {A} (g2 : M World unit) (c2 : M World (list string))
    (step : M World A) :
  keeps_flag_set step ->
  same_while_flag_set (interleaved (plan_with g2 c2) step) (interleaved skipped step).
Proof.
  intros Hstep v Hset. unfold interleaved.
  apply bind_agree_both; [apply plan_with_skipped, Hset |].
  intros [] v1 H1. apply (f_equal snd) in H1. cbn [snd] in H1.
  assert (Hset1 : isPlanningInProgress v1 = true).
  { rewrite <- H1, skipped_flag. exact Hset. }
  apply bind_agree. intros a v2 H2. apply (f_equal snd) in H2. cbn [snd] in H2.
  assert (Hset2 : isPlanningInProgress v2 = true).
  { rewrite <- H2. apply Hstep, Hset1. }
  apply bind_agree_l, plan_with_skipped, Hset2.
Qed.

Lemma interleaved_keeps_flag {A} (step : M World A) :
  keeps_flag_set step -> keeps_flag_set (interleaved skipped step).
Proof.
  intros Hstep v Hset. unfold interleaved, bind, skipped at 1, elizaLogger at 1.
  cbn [fst snd].
  match goal with |- context [step ?v1] =>
    pose proof (Hstep v1 Hset) as Hafter; destruct (step v1) as [[a | e] v2]
  end; exact Hafter.
Qed.

Lemma generatePlan_keeps_flag : keeps_flag_set generatePlan.
Proof.
  intros v Hset. unfold generatePlan. step. unfold try_catch. do 8 step.
  unfold elizaLogger. tidy. exact Hset.
Qed.

Lemma checkPlanProgress_keeps_flag : keeps_flag_set checkPlanProgress.
Proof.
  intros v Hset. unfold checkPlanProgress, bind, gets, deref, elizaLogger, ret.
  destruct (currentPlan v) as [l |]; [| exact Hset].
  destruct (heap v !! l); exact Hset.
Qed.

(** C7. An invocation of [plan] that finds the flag set logs
    [planning_skipped] and resolves: no plan object, the slot, the clock and
    the flag are as they were. An invocation that finds the flag clear
    resolves, whatever its steps do, resolving or rejecting, and the flag is
    clear when it has returned. While that invocation is in flight the flag
    is set: its steps are run only in worlds where the flag is set, so that
    steps which differ only where the flag is clear give the same cycle. An
    invocation of [plan] made before or after a step of a cycle in flight is
    therefore the logged skip and nothing else; and a cycle over an empty
    slot whose generation step is itself an invocation of [plan] generates
    nothing: it logs the skip and leaves the slot empty. *)
Theorem C7_reentrancy_guard (generatePlan_ : M World unit)
    (checkPlanProgress_ : M World (list string)) (w : World) :
  (isPlanningInProgress w = true ->
   plan_with generatePlan_ checkPlanProgress_ w =
     (Ret tt,
      mkWorld (heap w) (currentPlan w) true (clock w) (clockReads w)
        (journal w ++ [mkLog warn "planning_skipped" []
                             "Planning cycle already in progress, skipping"]))) /\
  (isPlanningInProgress w = false ->
   exists w',
     plan_with generatePlan_ checkPlanProgress_ w = (Ret tt, w') /\
     isPlanningInProgress w' = false) /\
  (isPlanningInProgress w = false ->
   keeps_flag_set checkPlanProgress_ ->
   forall (g' : M World unit) (c' : M World (list string)),
     same_while_flag_set g' generatePlan_ ->
     same_while_flag_set c' checkPlanProgress_ ->
     plan_with g' c' w = plan_with generatePlan_ checkPlanProgress_ w) /\
  (isPlanningInProgress w = false ->
   keeps_flag_set generatePlan_ ->
   keeps_flag_set checkPlanProgress_ ->
   forall (g2 : M World unit) (c2 : M World (list string)),
     plan_with (interleaved (plan_with g2 c2) generatePlan_)
               (interleaved (plan_with g2 c2) checkPlanProgress_) w
     = plan_with (interleaved skipped generatePlan_)
                 (interleaved skipped checkPlanProgress_) w) /\
  (isPlanningInProgress w = false ->
   currentPlan w = None ->
   forall (g2 : M World unit) (c2 : M World (list string)),
     plan_with (plan_with g2 c2) checkPlanProgress_ w =
       (Ret tt,
        mkWorld (heap w) None false (clock w) (clockReads w)
          (journal w ++ [mkLog warn "planning_skipped" []
                               "Planning cycle already in progress, skipping"]))).
Proof.
  split; [apply plan_with_skips |].
  split; [apply plan_with_clears_flag |].
  split; [intros Hidle Hc g' c' Hg Hcc; apply plan_with_agree; assumption |].
  split.
  - intros Hidle Hg Hc g2 c2. apply plan_with_agree.
    + exact Hidle.
    + apply interleaved_keeps_flag, Hc.
    + apply interleaved_skips, Hg.
    + apply interleaved_skips, Hc.
  - intros Hidle Hcur g2 c2. unfold plan_with at 1.
    step. rewrite Hidle. step. unfold try_finally, try_catch.
    step. rewrite Hcur. rewrite plan_with_skips by reflexivity.
    unfold modify. tidy. rewrite Hcur. reflexivity.
Qed.

Lemma C7_reentrancy_guard_witness :
  plan (Fixture.busy_planner Fixture.finished) =
    (Ret tt,
     mkWorld [Fixture.finished] (Some 0%nat) true (fun _ => 1000) 0
       [mkLog warn "planning_skipped" []
              "Planning cycle already in progress, skipping"]) /\
  (exists w',
     plan_with (throw "Test error in plan generation") checkPlanProgress
       (init (fun _ => 1000)) = (Ret tt, w') /\
     isPlanningInProgress w' = false) /\
  plan_with
    (fun v => if isPlanningInProgress v then generatePlan v
              else throw "run with the flag clear" v)
    (fun v => if isPlanningInProgress v then checkPlanProgress v
              else throw "run with the flag clear" v)
    (Fixture.planner Fixture.finished (fun _ => 1000))
  = plan (Fixture.planner Fixture.finished (fun _ => 1000)) /\
  plan_with (interleaved plan generatePlan) (interleaved plan checkPlanProgress)
            (Fixture.planner Fixture.finished (fun _ => 1000))
  = plan_with (interleaved skipped generatePlan) (interleaved skipped checkPlanProgress)
              (Fixture.planner Fixture.finished (fun _ => 1000)) /\
  plan_with plan checkPlanProgress (init (fun _ => 1000)) =
    (Ret tt,
     mkWorld [] None false (fun _ => 1000) 0
       [mkLog warn "planning_skipped" []
              "Planning cycle already in progress, skipping"]).
Proof.
  split.
  { apply (proj1 (C7_reentrancy_guard generatePlan checkPlanProgress
                    (Fixture.busy_planner Fixture.finished))).
    reflexivity. }
  split.
  { apply (proj1 (proj2 (C7_reentrancy_guard (throw "Test error in plan generation")
                           checkPlanProgress (init (fun _ => 1000))))).
    reflexivity. }
  split.
  { apply (proj1 (proj2 (proj2 (C7_reentrancy_guard generatePlan checkPlanProgress
                                  (Fixture.planner Fixture.finished (fun _ => 1000)))))).
    - reflexivity.
    - exact checkPlanProgress_keeps_flag.
    - intros v Hset. rewrite Hset. reflexivity.
    - intros v Hset. rewrite Hset. reflexivity. }
  split.
  { apply (proj1 (proj2 (proj2 (proj2
             (C7_reentrancy_guard generatePlan checkPlanProgress
                (Fixture.planner Fixture.finished (fun _ => 1000))))))).
    - reflexivity.
    - exact generatePlan_keeps_flag.
    - exact checkPlanProgress_keeps_flag. }
  apply (proj2 (proj2 (proj2 (proj2
           (C7_reentrancy_guard generatePlan checkPlanProgress
              (init (fun _ => 1000))))))).
  - reflexivity.
  - reflexivity.
Defined.

(** C9. After any sequence of public calls on a new planner, the slot is
    empty or holds the address of one plan, and the status of that plan is
    [active]: a [completed] or [abandoned] plan is never left in the slot. *)
Theorem C9_slot_holds_a_current_plan (now : nat -> Z) (calls : list Call) :
  match currentPlan (after calls (init now)) with
  | None => True
  | Some l =>
      exists p,
        heap (after calls (init now)) !! l = Some p /\
        Plan.status p = active /\
        Plan.status p <> plan_completed /\
        Plan.status p <> abandoned
  end.
Proof.
  pose proof (slot_current_after calls (init now) I) as Hslot.
  unfold slot_current in Hslot.
  destruct (currentPlan (after calls (init now))) as [l |]; [| exact I].
  destruct Hslot as (p & Hl & Hcur). apply is_current_active in Hcur.
  exists p. rewrite Hcur. repeat split; [assumption | discriminate | discriminate].
Qed.

(** The order of the two steps of [handleDiscrepancies] shows when generation
    is made to reject, as a spy can: the plan is already marked [abandoned]
    and stays in the slot. The [generatePlan] of the source never rejects. *)
Remark abandoned_plan_stays_if_generation_rejects :
  let w' := snd (plan_with (throw "Test error in plan generation")
                           (ret ["CRITICAL: Major state deviation detected"])
                           (Fixture.planner Fixture.finished (fun _ => 1000))) in
  currentPlan w' = Some 0%nat /\
  (Plan.status <$> heap w' !! 0%nat) = Some abandoned /\
  isPlanningInProgress w' = false.
Proof. vm_compute. repeat split. Qed.

End PlannerFacts.

(** * Facts about the two loops *)

Module LoopFacts.

(** Exactly one of the numbers [a .. a+n-1] is [k]. *)
Lemma filter_the_one (k a n : nat) :
  (a <= k < a + n)%nat ->
  List.filter (Nat.eqb k) (seq a n) = [k].
Proof.
  revert a. induction n as [| n IH]; intros a Hk; [lia |]. simpl.
  destruct (Nat.eqb_spec k a) as [-> | Hne].
  - f_equal. clear IH Hk. assert (Hlt : (a < S a)%nat) by lia. revert Hlt.
    generalize (S a). induction n as [| n IH]; intros b Hb; simpl; [reflexivity |].
    destruct (Nat.eqb_spec a b); [lia |]. apply IH. lia.
  - apply IH. lia.
Qed.

(** ** The single-timer loop *)

Section SingleTimer.
Import Loop.

(** What one trigger does inside the loop: its effect on the environment is
    kept and its rejection, if any, becomes one journal entry. *)
Lemma trigger_isolated {Env : Type} (trigger : M Env unit) (w : World Env) :
  try_catch (call trigger)
    (fun e => elizaLogger error "trigger_error" [("error", e)] "Error executing trigger") w
  = (Ret tt,
     mkWorld (triggers w) (loopTimer w) (isRunning w) (planningFunction w)
       (lastPlanTime w) (planIntervalMs w) (snd (trigger (env w))) (clock w)
       (clockReads w)
       (journal w ++ match fst (trigger (env w)) with
                     | Ret _ => []
                     | Throw e => [mkLog error "trigger_error" [("error", e)]
                                         "Error executing trigger"]
                     end)).
Proof.
  unfold try_catch, call. destruct (trigger (env w)) as [[[] | e] e'].
  - tidy. rewrite app_nil_r. destruct w; reflexivity.
  - reflexivity.
Qed.

(** Whatever the triggers do, [executeTriggers] resolves, and of the world
    only the environment and the journal change. *)
Lemma for_of_triggers_frame {Env : Type} (ts : list (M Env unit)) (w : World Env) :
  exists e' entries,
    for_of ts (fun trigger =>
      try_catch (call trigger)
        (fun e => elizaLogger error "trigger_error" [("error", e)]
                              "Error executing trigger")) w
    = (Ret tt,
       mkWorld (triggers w) (loopTimer w) (isRunning w) (planningFunction w)
         (lastPlanTime w) (planIntervalMs w) e' (clock w) (clockReads w)
         (journal w ++ entries)).
Proof.
  revert w. induction ts as [| trigger rest IH]; intros w.
  - exists (env w), []. rewrite app_nil_r. destruct w; reflexivity.
  - cbn [for_of]. erewrite bind_run by apply trigger_isolated.
    match goal with |- context [for_of rest _ ?w1] =>
      destruct (IH w1) as (e' & es & ->) end. tidy.
    exists e'. eexists. rewrite <- app_assoc. reflexivity.
Qed.

Lemma executeTriggers_frame {Env : Type} (w : World Env) :
  exists e' entries,
    executeTriggers w
    = (Ret tt,
       mkWorld (triggers w) (loopTimer w) (isRunning w) (planningFunction w)
         (lastPlanTime w) (planIntervalMs w) e' (clock w) (clockReads w)
         (journal w ++ entries)).
Proof.
  unfold executeTriggers. erewrite bind_run by reflexivity.
  apply for_of_triggers_frame.
Qed.

(** The spies, run by the loop: each writes its number once, in order, and
    each rejection is one journal entry. *)
Lemma for_of_spies (rejects : nat -> bool) (numbers : list nat) (w : World (list nat)) :
  for_of (map (spy rejects) numbers) (fun trigger =>
    try_catch (call trigger)
      (fun e => elizaLogger error "trigger_error" [("error", e)]
                            "Error executing trigger")) w
  = (Ret tt,
     mkWorld (triggers w) (loopTimer w) (isRunning w) (planningFunction w)
       (lastPlanTime w) (planIntervalMs w) (env w ++ numbers) (clock w) (clockReads w)
       (journal w ++
        map (fun _ => mkLog error "trigger_error" [("error", "Trigger failure")]
                            "Error executing trigger")
            (List.filter rejects numbers))).
Proof.
  revert w. induction numbers as [| i rest IH]; intros w.
  - cbn. rewrite !app_nil_r. destruct w; reflexivity.
  - cbn [map for_of List.filter]. erewrite bind_run by apply trigger_isolated.
    rewrite IH. tidy. unfold spy at 1 2. cbn [fst snd].
    destruct (rejects i); cbn [map]; rewrite <- !app_assoc; reflexivity.
Qed.

(** One iteration of the loop with a planning function registered. *)
Lemma tick_with_planning {Env : Type} (w : World Env) (planningFn : M Env unit) :
  planningFunction w = Some planningFn ->
  exists entries,
    tick w =
      (Ret tt,
       mkWorld (triggers w) (loopTimer w) (isRunning w) (Some planningFn)
         (if intervalElapsed (clock w (clockReads w)) w
             && resolved (fst (planningFn (env (snd (executeTriggers w)))))
          then clock w (clockReads w) else lastPlanTime w)
         (planIntervalMs w)
         (if intervalElapsed (clock w (clockReads w)) w
          then snd (planningFn (env (snd (executeTriggers w))))
          else env (snd (executeTriggers w)))
         (clock w) (S (clockReads w)) (journal w ++ entries)).
Proof.
  intros Hfn. unfold tick, try_catch at 1.
  destruct (executeTriggers_frame w) as (e1 & es & Hexec). rewrite Hexec.
  erewrite bind_run by exact Hexec. cbn [snd]. tidy.
  erewrite bind_run by reflexivity. tidy.
  erewrite bind_run by reflexivity. tidy.
  erewrite bind_run by reflexivity. tidy.
  rewrite Hfn. unfold intervalElapsed at 1. tidy.
  fold (intervalElapsed (clock w (clockReads w)) w).
  destruct (intervalElapsed (clock w (clockReads w)) w).
  - unfold try_catch, bind at 1, call. tidy.
    destruct (planningFn e1) as [[[] | e] e2]; cbn [fst snd resolved andb].
    + erewrite bind_run by reflexivity. tidy.
      unfold elizaLogger. tidy. eexists. rewrite <- app_assoc. reflexivity.
    + unfold elizaLogger. tidy. eexists. rewrite <- app_assoc. reflexivity.
  - cbn [andb]. exists es. reflexivity.
Qed.

(** C10. In one iteration of the single-timer loop with a planning function
    registered: when the interval has not elapsed the planning function is not
    called and [lastPlanTime] stays; when it has elapsed the planning function
    is called once, after the triggers; if it resolves, [lastPlanTime] becomes
    the time read in this iteration; if it rejects, [lastPlanTime] stays, so
    the interval has elapsed at every later time too, and the next iteration
    calls the planning function again. *)
Theorem C10_lastPlanTime_advances_on_success_only {Env : Type} (w : World Env)
    (planningFn : M Env unit) :
  planningFunction w = Some planningFn ->
  exists w',
    tick w = (Ret tt, w') /\
    planningFunction w' = Some planningFn /\
    planIntervalMs w' = planIntervalMs w /\
    (intervalElapsed (clock w (clockReads w)) w = false ->
     lastPlanTime w' = lastPlanTime w /\
     env w' = env (snd (executeTriggers w))) /\
    (intervalElapsed (clock w (clockReads w)) w = true ->
     env w' = snd (planningFn (env (snd (executeTriggers w)))) /\
     (resolved (fst (planningFn (env (snd (executeTriggers w))))) = true ->
      lastPlanTime w' = clock w (clockReads w)) /\
     (resolved (fst (planningFn (env (snd (executeTriggers w))))) = false ->
      lastPlanTime w' = lastPlanTime w /\
      (forall later, clock w (clockReads w) <= later -> intervalElapsed later w' = true) /\
      (clock w (clockReads w) <= clock w' (clockReads w') ->
       exists w'',
         tick w' = (Ret tt, w'') /\
         env w'' = snd (planningFn (env (snd (executeTriggers w'))))))).
Proof.
  intros Hfn. destruct (tick_with_planning w planningFn Hfn) as [es Htick].
  eexists. split; [exact Htick |]. tidy.
  split; [reflexivity |]. split; [reflexivity |]. split.
  - intros ->. cbn [andb]. auto.
  - intros Hdue. rewrite Hdue. cbn [andb]. split; [reflexivity |]. split.
    + intros ->. reflexivity.
    + intros ->.
      assert (Hlater : forall later, clock w (clockReads w) <= later ->
                (planIntervalMs w <=? later - lastPlanTime w)%Z = true).
      { intros later Hle. unfold intervalElapsed in Hdue.
        apply Z.leb_le. apply Z.leb_le in Hdue. lia. }
      split; [reflexivity |]. split.
      * intros later Hle. unfold intervalElapsed. tidy. auto.
      * intros Hle.
        match goal with |- context [tick ?w1] =>
          destruct (tick_with_planning w1 planningFn eq_refl) as [es' Htick'] end.
        eexists. split; [exact Htick' |]. tidy.
        unfold intervalElapsed at 1. tidy. rewrite (Hlater _ Hle). reflexivity.
Qed.

End SingleTimer.

(** ** The two-timer loop *)

Section TwoTimers.
Import TimerLoop.

Lemma timer_trigger_isolated {Env : Type} (trigger : M Env unit) (w : World Env) :
  try_catch (call trigger) (fun e => console_error "Error executing trigger:" e) w
  = (Ret tt,
     mkWorld (triggers w) (planningCallback w) (loopTimer w) (planningTimer w)
       (triggerInterval w) (planningInterval w) (isRunning w)
       (snd (trigger (env w))) (console_out w)
       (console_err w ++ match fst (trigger (env w)) with
                         | Ret _ => []
                         | Throw e => ["Error executing trigger: " +:+ e]
                         end)).
Proof.
  unfold try_catch, call. destruct (trigger (env w)) as [[[] | e] e'].
  - tidy. rewrite app_nil_r. destruct w; reflexivity.
  - reflexivity.
Qed.

Lemma timer_for_of_spies (rejects : nat -> bool) (numbers : list nat)
    (w : World (list nat)) :
  for_of (map (spy rejects) numbers) (fun trigger =>
    try_catch (call trigger) (fun e => console_error "Error executing trigger:" e)) w
  = (Ret tt,
     mkWorld (triggers w) (planningCallback w) (loopTimer w) (planningTimer w)
       (triggerInterval w) (planningInterval w) (isRunning w)
       (env w ++ numbers) (console_out w)
       (console_err w ++
        map (fun _ => "Error executing trigger: Trigger failure")
            (List.filter rejects numbers))).
Proof.
  revert w. induction numbers as [| i rest IH]; intros w.
  - cbn. rewrite !app_nil_r. destruct w; reflexivity.
  - cbn [map for_of List.filter]. erewrite bind_run by apply timer_trigger_isolated.
    rewrite IH. tidy. unfold spy at 1 2. cbn [fst snd].
    destruct (rejects i); cbn [map]; rewrite <- !app_assoc; reflexivity.
Qed.

End TwoTimers.

(** C8. Register [N] spies, of which those that [rejects] names reject, and
    run the triggers once. In either loop the call resolves; the journal of
    invocations has grown by [0, 1, .., N-1], so every spy ran exactly once
    and in the order of registration, those after a rejecting one included;
    and there is one error report per rejecting spy. When the spy [k < N] is
    the only one that rejects, there is exactly one report. *)
Theorem C8_trigger_isolation (rejects : nat -> bool) (N : nat)
    (w : Loop.World (list nat)) (v : TimerLoop.World (list nat)) :
  Loop.triggers w = spies rejects N ->
  TimerLoop.triggers v = spies rejects N ->
  exists w' v',
    Loop.executeTriggers w = (Ret tt, w') /\
    Loop.env w' = Loop.env w ++ seq 0 N /\
    Loop.journal w' =
      Loop.journal w ++
      map (fun _ => Loop.mkLog Loop.error "trigger_error" [("error", "Trigger failure")]
                               "Error executing trigger")
          (List.filter rejects (seq 0 N)) /\
    TimerLoop.executeTriggers v = (Ret tt, v') /\
    TimerLoop.env v' = TimerLoop.env v ++ seq 0 N /\
    TimerLoop.console_err v' =
      TimerLoop.console_err v ++
      map (fun _ => "Error executing trigger: Trigger failure")
          (List.filter rejects (seq 0 N)) /\
    (forall k, (k < N)%nat -> (forall i, rejects i = Nat.eqb k i) ->
       Loop.journal w' =
         Loop.journal w ++
         [Loop.mkLog Loop.error "trigger_error" [("error", "Trigger failure")]
                     "Error executing trigger"] /\
       TimerLoop.console_err v' =
         TimerLoop.console_err v ++ ["Error executing trigger: Trigger failure"]).
Proof.
  intros Hw Hv.
  unfold Loop.executeTriggers, TimerLoop.executeTriggers.
  erewrite !bind_run by reflexivity. rewrite Hw, Hv. unfold spies.
  rewrite for_of_spies, timer_for_of_spies.
  eexists. eexists. split; [reflexivity |]. Loop.tidy. TimerLoop.tidy.
  repeat split; try reflexivity.
  - rewrite (List.filter_ext rejects (Nat.eqb k)) by assumption.
    rewrite filter_the_one by lia. reflexivity.
  - rewrite (List.filter_ext rejects (Nat.eqb k)) by assumption.
    rewrite filter_the_one by lia. reflexivity.
Qed.

Lemma C8_trigger_isolation_witness :
  exists w' v',
    Loop.executeTriggers
      (Loop.mkWorld (spies (Nat.eqb 1) 3) (Some 100) true None 0 60000 [] (fun _ => 0) 0 [])
      = (Ret tt, w') /\
    Loop.env w' = [0; 1; 2]%nat /\
    Loop.journal w' =
      [Loop.mkLog Loop.error "trigger_error" [("error", "Trigger failure")]
                  "Error executing trigger"] /\
    TimerLoop.executeTriggers
      (TimerLoop.mkWorld (spies (Nat.eqb 1) 3) None (Some 100) None 100 200 true [] [] [])
      = (Ret tt, v') /\
    TimerLoop.env v' = [0; 1; 2]%nat /\
    TimerLoop.console_err v' = ["Error executing trigger: Trigger failure"].
Proof.
  destruct (C8_trigger_isolation (Nat.eqb 1) 3
              (Loop.mkWorld (spies (Nat.eqb 1) 3) (Some 100) true None 0 60000 []
                            (fun _ => 0) 0 [])
              (TimerLoop.mkWorld (spies (Nat.eqb 1) 3) None (Some 100) None 100 200
                                 true [] [] [])
              eq_refl eq_refl)
    as (w' & v' & Hw & Henv & Hjournal & Hv & Henv' & Herr & _).
  exists w', v'. repeat split; assumption.
Defined.

Lemma C10_lastPlanTime_advances_on_success_only_witness :
  (exists w',
     Loop.tick (Loop.mkWorld [] (Some 100) true (Some (throw "Planning failure"))
                             0 200 tt (fun _ => 250) 0 [])
       = (Ret tt, w') /\
     Loop.lastPlanTime w' = 0 /\
     Loop.intervalElapsed 250 w' = true) /\
  (exists w',
     Loop.tick (Loop.mkWorld [] (Some 100) true (Some (ret tt))
                             0 200 tt (fun _ => 250) 0 [])
       = (Ret tt, w') /\
     Loop.lastPlanTime w' = 250).
Proof.
  split.
  - destruct (C10_lastPlanTime_advances_on_success_only
                (Loop.mkWorld [] (Some 100) true (Some (throw "Planning failure"))
                              0 200 tt (fun _ => 250) 0 [])
                (throw "Planning failure") eq_refl)
      as (w' & Htick & _ & _ & _ & Hdue).
    destruct (Hdue eq_refl) as (_ & _ & Hrejects).
    destruct (Hrejects eq_refl) as (Hlast & Hlater & _).
    exists w'. split; [exact Htick |]. split; [exact Hlast |].
    apply Hlater. cbn. lia.
  - destruct (C10_lastPlanTime_advances_on_success_only
                (Loop.mkWorld [] (Some 100) true (Some (ret tt))
                              0 200 tt (fun _ => 250) 0 [])
                (ret tt) eq_refl)
      as (w' & Htick & _ & _ & _ & Hdue).
    destruct (Hdue eq_refl) as (_ & Hresolves & _).
    exists w'. split; [exact Htick |]. apply Hresolves. reflexivity.
Defined.

End LoopFacts.

(** * Strings that end differently *)

Lemma length_append (s1 s2 : string) :
  String.length (s1 +:+ s2) = (String.length s1 + String.length s2)%nat.
Proof. induction s1 as [| c s1 IH]; simpl; [reflexivity | rewrite IH; reflexivity]. Qed.

(** Two strings with tails of the same length are equal only if the tails
    and what comes before them are. *)
Lemma append_tail_inj (s1 s2 x y : string) :
  String.length x = String.length y ->
  s1 +:+ x = s2 +:+ y ->
  s1 = s2 /\ x = y.
Proof.
  intros Hlen. revert s2.
  induction s1 as [| c s1 IH]; intros [| d s2] Heq; simpl in Heq.
  - auto.
  - apply (f_equal String.length) in Heq. simpl in Heq.
    rewrite !length_append in Heq. simpl in Heq. lia.
  - apply (f_equal String.length) in Heq. simpl in Heq.
    rewrite !length_append in Heq. simpl in Heq. lia.
  - injection Heq as -> Heq. destruct (IH s2 Heq) as [-> ->]. auto.
Qed.

(** * More about services/PlanningModule.ts *)

Module ServicesMore.
Import Services.

(** The shape of a generated plan. *)
Lemma generatePlan_shape (state : State) (w : World) :
  exists p w',
    generatePlan state w = (Ret (length (heap w)), w') /\
    heap w' = heap w ++ [p] /\
    Plan.status p = plan_created /\
    Plan.metadata p = None /\
    length (Plan.subtasks p) = 3%nat /\
    Forall (fun task => Subtask.status task = pending) (Plan.subtasks p) /\
    NoDup (map Subtask.id (Plan.subtasks p)).
Proof.
  cbv [generatePlan new_subtask bind Date_now random_1000 alloc ret
       heap clock clockReads dice diceReads console].
  eexists. eexists. split; [reflexivity |].
  cbn [heap Plan.status Plan.metadata Plan.subtasks length map Subtask.id Subtask.status].
  repeat split; try (repeat constructor; fail).
  assert (Hne : forall a b x y : string,
            String.length x = String.length y -> x <> y ->
            "subtask-" +:+ a +:+ x <> "subtask-" +:+ b +:+ y).
  { intros a b x y Hlen Hxy Heq. simpl in Heq. injection Heq as Heq.
    change (a +:+ x = b +:+ y) in Heq.
    apply append_tail_inj in Heq; [| exact Hlen]. destruct Heq as [_ Heq]. contradiction. }
  repeat constructor; rewrite ?list_elem_of_In; cbn [In]; intros H;
    repeat (destruct H as [H | H]); try contradiction;
    revert H; apply Hne; (reflexivity || discriminate).
Qed.

(** X1. [generatePlan] always resolves with a reference to a new plan object:
    its status is [created], it has no metadata, it has three subtasks, all
    [pending], whose ids are pairwise different whatever the clock returns;
    every plan object that existed is unchanged. *)
Theorem generatePlan_well_formed (state : State) (w : World) :
  exists p w',
    generatePlan state w = (Ret (length (heap w)), w') /\
    heap w' = heap w ++ [p] /\
    Plan.status p = plan_created /\
    Plan.metadata p = None /\
    length (Plan.subtasks p) = 3%nat /\
    Forall (fun task => Subtask.status task = pending) (Plan.subtasks p) /\
    NoDup (map Subtask.id (Plan.subtasks p)).
Proof. exact (generatePlan_shape state w). Qed.

(** X2. The plan that replaces one with a failed subtask is [created], has
    three [pending] subtasks, and records the reason ['Failed tasks
    detected'] and, as [previousPlanId], the id of the plan given; asked
    again about the replacement, [replanIfNeeded] resolves with the
    replacement itself and changes no plan object. *)
Theorem replacement_is_well_formed_and_final (state state' : State) (w : World)
    (l : ref) (p : Plan.t) :
  heap w !! l = Some p ->
  Exists (fun task => Subtask.status task = failed) (Plan.subtasks p) ->
  exists l' w' p',
    replanIfNeeded state (Some l) w = (Ret l', w') /\
    heap w' = heap w ++ [p'] /\
    heap w' !! l' = Some p' /\
    Plan.status p' = plan_created /\
    length (Plan.subtasks p') = 3%nat /\
    Forall (fun task => Subtask.status task = pending) (Plan.subtasks p') /\
    (Plan.metadata p' ≫= Metadata.replanReason) = Some "Failed tasks detected" /\
    (Plan.metadata p' ≫= Metadata.previousPlanId) = Some (Plan.id p) /\
    exists w'',
      replanIfNeeded state' (Some l') w' = (Ret l', w'') /\
      heap w'' = heap w'.
Proof.
  intros Hl Hfailed. apply ServicesFacts.hasFailedTasks_true in Hfailed.
  unfold replanIfNeeded at 1.
  erewrite bind_run by (apply ServicesFacts.deref_at; eassumption).
  erewrite bind_run by reflexivity. rewrite Hfailed.
  erewrite bind_run by reflexivity.
  cbn [heap clock clockReads dice diceReads console].
  match goal with |- context [bind (generatePlan state) _ ?w1] =>
    destruct (generatePlan_shape state w1)
      as (fresh & w2 & Hgen & Hheap & Hst & Hmeta & Hlen & Hpend & _)
  end.
  cbn [heap clock clockReads dice diceReads console] in Hheap, Hgen.
  erewrite bind_run by exact Hgen.
  pose proof (lookup_lt_Some _ _ _ Hl) as Hlt.
  assert (Hold : heap w2 !! l = Some p)
    by (rewrite Hheap, lookup_app_l by assumption; assumption).
  assert (Hnew : heap w2 !! length (heap w) = Some fresh)
    by (rewrite Hheap; apply list_lookup_middle; reflexivity).
  erewrite bind_run by (apply ServicesFacts.deref_at; eassumption).
  erewrite bind_run by (apply ServicesFacts.set_metadata_at; eassumption).
  assert (Hfinal : <[length (heap w) := Plan.with_metadata (lineage p) fresh]> (heap w2)
                   = heap w ++ [Plan.with_metadata (lineage p) fresh]).
  { rewrite Hheap, insert_app_r_alt, Nat.sub_diag by reflexivity. reflexivity. }
  assert (Hlook : (heap w ++ [Plan.with_metadata (lineage p) fresh]) !! length (heap w)
                  = Some (Plan.with_metadata (lineage p) fresh))
    by (apply list_lookup_middle; reflexivity).
  cbn [heap clock clockReads dice diceReads console]. unfold ref in *.
  rewrite Hfinal. unfold ret.
  eexists. eexists. exists (Plan.with_metadata (lineage p) fresh).
  split; [reflexivity |]. cbn [heap].
  split; [reflexivity |]. split; [exact Hlook |].
  split; [exact Hst |]. split; [exact Hlen |]. split; [exact Hpend |].
  split; [reflexivity |]. split; [reflexivity |].
  eexists. split; [apply ServicesFacts.replanIfNeeded_keeps | reflexivity].
  - exact Hlook.
  - apply ServicesFacts.hasFailedTasks_false. cbn [Plan.with_metadata Plan.subtasks].
    eapply Forall_impl; [exact Hpend |]. intros task ->. discriminate.
Qed.

Lemma replacement_is_well_formed_and_final_witness :
  exists l' w' p',
    replanIfNeeded Fixture.state (Some 0%nat) (Fixture.world Fixture.P0) = (Ret l', w') /\
    heap w' = [Fixture.P0; p'] /\
    heap w' !! l' = Some p' /\
    Plan.status p' = plan_created /\
    length (Plan.subtasks p') = 3%nat /\
    Forall (fun task => Subtask.status task = pending) (Plan.subtasks p') /\
    (Plan.metadata p' ≫= Metadata.replanReason) = Some "Failed tasks detected" /\
    (Plan.metadata p' ≫= Metadata.previousPlanId) = Some (Plan.id Fixture.P0) /\
    exists w'',
      replanIfNeeded Fixture.state (Some l') w' = (Ret l', w'') /\
      heap w'' = heap w'.
Proof.
  apply (replacement_is_well_formed_and_final Fixture.state Fixture.state
           (Fixture.world Fixture.P0) 0%nat Fixture.P0 eq_refl).
  right. left. reflexivity.
Defined.

(** X3. The four counts that [monitorPlan] writes add up to the number of
    subtasks it writes in the header: every subtask falls in exactly one of
    the four. *)
Theorem monitorPlan_counts_add_up (w : World) (l : ref) (p : Plan.t) :
  heap w !! l = Some p ->
  exists w',
    monitorPlan (Some l) w = (Ret tt, w') /\
    console w' = console w ++ [monitor_header p; monitor_tally p] /\
    monitor_header p =
      "Monitoring plan " +:+ Plan.id p +:+ " with "
        +:+ pretty (count_status pending p + count_status in_progress p
                    + count_status completed p + count_status failed p)%nat
        +:+ " subtasks".
Proof.
  intros Hl. unfold monitorPlan.
  erewrite bind_run by (apply ServicesFacts.deref_at; eassumption).
  erewrite bind_run by reflexivity.
  eexists. split; [reflexivity |]. cbn [console].
  split; [rewrite <- app_assoc; reflexivity |].
  rewrite ServicesFacts.tally_partitions. reflexivity.
Qed.

Lemma monitorPlan_counts_add_up_witness :
  exists w',
    monitorPlan (Some 0%nat) (Fixture.world Fixture.P0) = (Ret tt, w') /\
    console w' = console (Fixture.world Fixture.P0)
                 ++ [monitor_header Fixture.P0; monitor_tally Fixture.P0] /\
    monitor_header Fixture.P0 =
      "Monitoring plan " +:+ Plan.id Fixture.P0 +:+ " with "
        +:+ pretty (count_status pending Fixture.P0 + count_status in_progress Fixture.P0
                    + count_status completed Fixture.P0 + count_status failed Fixture.P0)%nat
        +:+ " subtasks".
Proof.
  exact (monitorPlan_counts_add_up (Fixture.world Fixture.P0) 0%nat Fixture.P0 eq_refl).
Defined.

End ServicesMore.

(** * More about src/PlanningModule.ts *)

Module PlannerMore.
Import Planner.

Ltac go := erewrite bind_run by reflexivity; tidy.

(** The plan that [generatePlan] makes, reading by reading of the clock. *)
Lemma generatePlan_exact (w : World) :
  exists entries,
    generatePlan w =
      (Ret tt,
       mkWorld
         (heap w ++
          [Plan.mk ("plan-" +:+ pretty (clock w (clockReads w))) "Default goal"
             [ Subtask.mk ("task-" +:+ pretty (clock w (1 + clockReads w)%nat) +:+ "-1")
                          "Example subtask 1" pending None;
               Subtask.mk ("task-" +:+ pretty (clock w (2 + clockReads w)%nat) +:+ "-2")
                          "Example subtask 2" pending
                          (Some ["task-" +:+ pretty (clock w (3 + clockReads w)%nat)
                                         +:+ "-1"]) ]
             (clock w (4 + clockReads w)%nat) (clock w (5 + clockReads w)%nat) active])
         (Some (length (heap w))) (isPlanningInProgress w) (clock w)
         (6 + clockReads w) (journal w ++ entries)).
Proof.
  unfold generatePlan. go. unfold try_catch. do 8 go.
  eexists. unfold elizaLogger. tidy. rewrite <- app_assoc. reflexivity.
Qed.

Lemma plan_generates_exact (check : M World (list string)) (w : World) :
  isPlanningInProgress w = false ->
  currentPlan w = None ->
  exists entries,
    plan_with generatePlan check w =
      (Ret tt,
       mkWorld
         (heap w ++
          [Plan.mk ("plan-" +:+ pretty (clock w (clockReads w))) "Default goal"
             [ Subtask.mk ("task-" +:+ pretty (clock w (1 + clockReads w)%nat) +:+ "-1")
                          "Example subtask 1" pending None;
               Subtask.mk ("task-" +:+ pretty (clock w (2 + clockReads w)%nat) +:+ "-2")
                          "Example subtask 2" pending
                          (Some ["task-" +:+ pretty (clock w (3 + clockReads w)%nat)
                                         +:+ "-1"]) ]
             (clock w (4 + clockReads w)%nat) (clock w (5 + clockReads w)%nat) active])
         (Some (length (heap w))) false (clock w)
         (6 + clockReads w) (journal w ++ entries)).
Proof.
  intros Hidle Hcur. unfold plan_with.
  go. rewrite Hidle. go.
  unfold try_finally, try_catch.
  go. rewrite Hcur.
  match goal with |- context [generatePlan ?w1] =>
    destruct (generatePlan_exact w1) as (es & ->) end.
  tidy. eexists. reflexivity.
Qed.

Lemma task_ids_differ (a b : string) :
  "task-" +:+ a +:+ "-1" <> "task-" +:+ b +:+ "-2".
Proof.
  intros Heq. simpl in Heq. injection Heq as Heq.
  change (a +:+ "-1" = b +:+ "-2") in Heq.
  apply append_tail_inj in Heq; [| reflexivity]. destruct Heq as [_ Heq]. discriminate Heq.
Qed.

Lemma task_ids_equal (a b : Z) :
  "task-" +:+ pretty a +:+ "-1" = "task-" +:+ pretty b +:+ "-1" <-> a = b.
Proof.
  split; [| intros ->; reflexivity].
  intros Heq. simpl in Heq. injection Heq as Heq.
  change (pretty a +:+ "-1" = pretty b +:+ "-1") in Heq.
  apply append_tail_inj in Heq; [| reflexivity]. destruct Heq as [Heq _].
  exact (inj pretty a b Heq).
Qed.

(** X4. A cycle of [plan] that finds the slot empty (and no cycle in flight)
    installs a new plan object, which [getCurrentPlan] then returns: the plan
    is [active], its goal is ['Default goal'], and it has two [pending]
    subtasks whose ids differ whatever the clock returns; the plan objects
    that existed are unchanged and the flag is clear again. *)
Theorem plan_fills_an_empty_slot (w : World) :
  isPlanningInProgress w = false ->
  currentPlan w = None ->
  exists w' p t1 t2,
    plan w = (Ret tt, w') /\
    getCurrentPlan w' = (Ret (Some (length (heap w))), w') /\
    heap w' = heap w ++ [p] /\
    isPlanningInProgress w' = false /\
    Plan.id p = "plan-" +:+ pretty (clock w (clockReads w)) /\
    Plan.status p = active /\
    Plan.goal p = "Default goal" /\
    Plan.subtasks p = [t1; t2] /\
    Subtask.status t1 = pending /\
    Subtask.status t2 = pending /\
    Subtask.id t1 <> Subtask.id t2.
Proof.
  intros Hidle Hcur.
  destruct (plan_generates_exact checkPlanProgress w Hidle Hcur) as [es Hrun].
  eexists. eexists. eexists. eexists. split; [exact Hrun |].
  split; [reflexivity |]. tidy. cbn [Plan.id Plan.status Plan.goal Plan.subtasks
                                      Subtask.status Subtask.id].
  repeat split. apply task_ids_differ.
Qed.

Lemma plan_fills_an_empty_slot_witness :
  exists w' p t1 t2,
    plan (init (fun n => 1000 + Z.of_nat n)) = (Ret tt, w') /\
    getCurrentPlan w' = (Ret (Some 0%nat), w') /\
    heap w' = [p] /\
    isPlanningInProgress w' = false /\
    Plan.id p = "plan-1000" /\
    Plan.status p = active /\
    Plan.goal p = "Default goal" /\
    Plan.subtasks p = [t1; t2] /\
    Subtask.status t1 = pending /\
    Subtask.status t2 = pending /\
    Subtask.id t1 <> Subtask.id t2.
Proof.
  exact (plan_fills_an_empty_slot (init (fun n => 1000 + Z.of_nat n)) eq_refl eq_refl).
Defined.

(** X5. The second subtask of a generated plan has one dependency, built from
    a reading of the clock of its own. It is the id of the first subtask
    exactly when that reading equals the one the first id was built from;
    otherwise it is the id of no subtask of the plan. *)
Theorem generated_dependency_may_dangle (w : World) :
  isPlanningInProgress w = false ->
  currentPlan w = None ->
  exists w' p t1 t2 dependency,
    plan w = (Ret tt, w') /\
    heap w' !! length (heap w) = Some p /\
    Plan.subtasks p = [t1; t2] /\
    Subtask.dependencies t1 = None /\
    Subtask.dependencies t2 = Some [dependency] /\
    (dependency = Subtask.id t1 <->
     clock w (3 + clockReads w)%nat = clock w (1 + clockReads w)%nat) /\
    (clock w (3 + clockReads w)%nat <> clock w (1 + clockReads w)%nat ->
     Forall (fun task => Subtask.id task <> dependency) (Plan.subtasks p)).
Proof.
  intros Hidle Hcur.
  destruct (plan_generates_exact checkPlanProgress w Hidle Hcur) as [es Hrun].
  eexists. eexists. eexists. eexists. eexists. split; [exact Hrun |]. tidy.
  split; [apply list_lookup_middle; reflexivity |].
  cbn [Plan.subtasks Subtask.dependencies Subtask.id].
  split; [reflexivity |]. split; [reflexivity |]. split; [reflexivity |].
  split; [apply task_ids_equal |].
  intros Hne. repeat constructor.
  - intros Heq. apply task_ids_equal in Heq. congruence.
  - intros Heq. symmetry in Heq. revert Heq. apply task_ids_differ.
Qed.

Lemma generated_dependency_may_dangle_witness :
  exists w' p t1 t2 dependency,
    plan (init (fun n => 1000 + Z.of_nat n)) = (Ret tt, w') /\
    heap w' !! 0%nat = Some p /\
    Plan.subtasks p = [t1; t2] /\
    Subtask.dependencies t1 = None /\
    Subtask.dependencies t2 = Some [dependency] /\
    (dependency = Subtask.id t1 <-> 1003 = 1001) /\
    (1003 <> 1001 ->
     Forall (fun task => Subtask.id task <> dependency) (Plan.subtasks p)).
Proof.
  exact (generated_dependency_may_dangle (init (fun n => 1000 + Z.of_nat n))
           eq_refl eq_refl).
Defined.

Lemma all_completed_iff (tasks : list Subtask.t) :
  forallb (fun task => SubtaskStatus_eqb (Subtask.status task) completed) tasks = true <->
  Forall (fun task => Subtask.status task = completed) tasks.
Proof.
  rewrite forallb_forall, Forall_forall. split; intros H task Hin.
  - apply PlannerFacts.planner_status_eqb_eq, H, list_elem_of_In, Hin.
  - apply PlannerFacts.planner_status_eqb_eq, H, list_elem_of_In, Hin.
Qed.

Lemma not_all_completed_iff (tasks : list Subtask.t) :
  forallb (fun task => SubtaskStatus_eqb (Subtask.status task) completed) tasks = false <->
  Exists (fun task => Subtask.status task <> completed) tasks.
Proof.
  induction tasks as [| task rest IH]; simpl.
  - split; [discriminate | intros H; inversion H].
  - rewrite andb_false_iff, IH, Exists_cons. split.
    + intros [Hhere | Hlater]; [left | right; exact Hlater].
      intros Heq. apply PlannerFacts.planner_status_eqb_eq in Heq. congruence.
    + intros [Hhere | Hlater]; [left | right; exact Hlater].
      apply not_true_iff_false. intros Heq.
      apply Hhere, PlannerFacts.planner_status_eqb_eq, Heq.
Qed.

Lemma tolerated_iff (ds : list string) :
  shouldReplan ds = false <-> Forall (fun d => String.prefix "CRITICAL:" d = false) ds.
Proof.
  unfold shouldReplan. induction ds as [| d rest IH]; simpl.
  - split; [constructor | reflexivity].
  - rewrite orb_false_iff, IH. split.
    + intros [Hd Hrest]. constructor; assumption.
    + intros H. inversion H; subst. auto.
Qed.

(** X6. A cycle of [plan] over a plan in the slot, with discrepancies none of
    which starts with [CRITICAL:] (the source reports none at all), does one
    of two things. If every subtask is [completed] (also when there is none),
    the plan is marked [completed], its [updatedAt] is set to the time read,
    and the slot is emptied. If some subtask is not [completed], be it
    [failed], nothing changes but the journal: the slot, the plan and every
    other plan object stay as they were, and no plan is generated. *)
Theorem cycle_without_critical_drift (ds : list string) (w : World) (l : ref)
    (p : Plan.t) :
  isPlanningInProgress w = false ->
  currentPlan w = Some l ->
  heap w !! l = Some p ->
  Forall (fun d => String.prefix "CRITICAL:" d = false) ds ->
  (Forall (fun task => Subtask.status task = completed) (Plan.subtasks p) ->
   currentPlan (snd (plan w)) = None /\
   currentPlan (snd (plan_with generatePlan (ret ds) w)) = None /\
   heap (snd (plan w)) = heap (snd (plan_with generatePlan (ret ds) w)) /\
   heap (snd (plan w)) =
     <[l := Plan.mk (Plan.id p) (Plan.goal p) (Plan.subtasks p) (Plan.createdAt p)
                    (clock w (clockReads w)) plan_completed]> (heap w)) /\
  (Exists (fun task => Subtask.status task <> completed) (Plan.subtasks p) ->
   currentPlan (snd (plan w)) = Some l /\
   currentPlan (snd (plan_with generatePlan (ret ds) w)) = Some l /\
   heap (snd (plan w)) = heap w /\
   heap (snd (plan_with generatePlan (ret ds) w)) = heap w).
Proof.
  intros Hidle Hcur Hl Hds. apply tolerated_iff in Hds.
  destruct (PlannerFacts.plan_cycle checkPlanProgress []
              PlannerFacts.checkPlanProgress_resolves w l p Hidle Hcur Hl)
    as (w1 & Hrun1 & _ & _ & Hcases1).
  destruct (PlannerFacts.plan_cycle (ret ds) ds (PlannerFacts.spy_resolves ds)
              w l p Hidle Hcur Hl)
    as (w2 & Hrun2 & _ & _ & Hcases2).
  fold plan in Hrun1. rewrite Hrun1, Hrun2. cbn [snd].
  destruct Hcases1 as [(Hcrit & _) | Hcases1]; [discriminate Hcrit |].
  destruct Hcases2 as [(Hcrit & _) | Hcases2]; [congruence |].
  split.
  - intros Hall. apply all_completed_iff in Hall.
    destruct Hcases1 as [(_ & _ & Hheap1 & Hcur1) | (_ & Hnot & _)]; [| congruence].
    destruct Hcases2 as [(_ & _ & Hheap2 & Hcur2) | (_ & Hnot & _)]; [| congruence].
    rewrite Hheap1, Hheap2. auto.
  - intros Hsome. apply not_all_completed_iff in Hsome.
    destruct Hcases1 as [(_ & Hyes & _) | (_ & _ & Hheap1 & Hcur1)]; [congruence |].
    destruct Hcases2 as [(_ & Hyes & _) | (_ & _ & Hheap2 & Hcur2)]; [congruence |].
    auto.
Qed.

Lemma cycle_without_critical_drift_witness :
  (currentPlan (snd (plan (Fixture.planner Fixture.finished (fun _ => 2000)))) = None /\
   currentPlan (snd (plan_with generatePlan (ret ["MINOR: Small state deviation detected"])
                       (Fixture.planner Fixture.finished (fun _ => 2000)))) = None /\
   heap (snd (plan (Fixture.planner Fixture.finished (fun _ => 2000))))
     = heap (snd (plan_with generatePlan (ret ["MINOR: Small state deviation detected"])
                    (Fixture.planner Fixture.finished (fun _ => 2000)))) /\
   heap (snd (plan (Fixture.planner Fixture.finished (fun _ => 2000)))) =
     [Plan.mk "plan-1000" "Default goal" (Plan.subtasks Fixture.finished) 1000 2000
              plan_completed]) /\
  (let stalled :=
     Plan.mk "plan-1000" "Default goal"
       [Subtask.mk "task-1000-1" "Example subtask 1" failed None] 1000 1000 active in
   currentPlan (snd (plan (Fixture.planner stalled (fun _ => 2000)))) = Some 0%nat /\
   currentPlan (snd (plan_with generatePlan (ret ["MINOR: Small state deviation detected"])
                       (Fixture.planner stalled (fun _ => 2000)))) = Some 0%nat /\
   heap (snd (plan (Fixture.planner stalled (fun _ => 2000)))) = [stalled] /\
   heap (snd (plan_with generatePlan (ret ["MINOR: Small state deviation detected"])
                 (Fixture.planner stalled (fun _ => 2000)))) = [stalled]).
Proof.
  split.
  - apply (proj1 (cycle_without_critical_drift
                    ["MINOR: Small state deviation detected"]
                    (Fixture.planner Fixture.finished (fun _ => 2000)) 0%nat
                    Fixture.finished eq_refl eq_refl eq_refl
                    ltac:(repeat constructor))).
    repeat constructor.
  - cbn zeta.
    apply (proj2 (cycle_without_critical_drift
                    ["MINOR: Small state deviation detected"]
                    (Fixture.planner
                       (Plan.mk "plan-1000" "Default goal"
                          [Subtask.mk "task-1000-1" "Example subtask 1" failed None]
                          1000 1000 active)
                       (fun _ => 2000)) 0%nat _ eq_refl eq_refl eq_refl
                    ltac:(repeat constructor))).
    left. discriminate.
Defined.

(** X7. On a planner with an empty slot, whatever the clock returns: let
    [plan] generate a plan, set both of its subtasks to [completed] by their
    ids, and run [plan] again. Both updates succeed, the plan is marked
    [completed] and the slot is empty. *)
Theorem completing_both_subtasks_empties_the_slot (w : World) :
  isPlanningInProgress w = false ->
  currentPlan w = None ->
  exists l p t1 t2,
    currentPlan (snd (plan w)) = Some l /\
    heap (snd (plan w)) !! l = Some p /\
    Plan.subtasks p = [t1; t2] /\
    let second := updateSubtaskStatus (Subtask.id t1) completed (snd (plan w)) in
    let third := updateSubtaskStatus (Subtask.id t2) completed (snd second) in
    let last := snd (plan (snd third)) in
    fst second = Ret true /\
    fst third = Ret true /\
    currentPlan last = None /\
    (Plan.status <$> heap last !! l) = Some plan_completed /\
    (Plan.subtasks <$> heap last !! l)
      = Some [Subtask.with_status completed t1; Subtask.with_status completed t2] /\
    isPlanningInProgress last = false.
Proof.
  intros Hidle Hcur.
  destruct (plan_generates_exact checkPlanProgress w Hidle Hcur) as [es Hrun].
  fold plan in Hrun. rewrite Hrun. cbn [snd]. tidy.
  eexists. eexists. eexists. eexists.
  split; [reflexivity |].
  split; [apply list_lookup_middle; reflexivity |].
  split; [reflexivity |]. cbn zeta. cbn [Subtask.id].
  match goal with |- context [updateSubtaskStatus ?i1 completed ?w1] =>
    edestruct (PlannerFacts.updateSubtaskStatus_found i1 completed (length (heap w)) w1)
      as [es2 Hrun2];
      [reflexivity | tidy; apply list_lookup_middle; reflexivity
       | cbn [Plan.subtasks find Subtask.id]; rewrite String.eqb_refl; reflexivity |]
  end.
  rewrite Hrun2. cbn [fst snd]. tidy.
  cbn [Plan.subtasks Plan.id Plan.goal Plan.createdAt Plan.status assign_first Subtask.id]
    in *.
  rewrite String.eqb_refl in *.
  rewrite insert_app_r_alt, Nat.sub_diag in * by reflexivity. cbn [insert list_insert] in *.
  match goal with |- context [updateSubtaskStatus ?i2 completed ?w2] =>
    edestruct (PlannerFacts.updateSubtaskStatus_found i2 completed (length (heap w)) w2)
      as [es3 Hrun3];
      [reflexivity | tidy; apply list_lookup_middle; reflexivity
       | cbn [Plan.subtasks find Subtask.id Subtask.with_status];
         destruct (String.eqb_spec
                     ("task-" +:+ pretty (clock w (1 + clockReads w)%nat) +:+ "-1")
                     ("task-" +:+ pretty (clock w (2 + clockReads w)%nat) +:+ "-2"))
           as [Heq | _]; [destruct (task_ids_differ _ _ Heq) |];
         rewrite String.eqb_refl; reflexivity |]
  end.
  rewrite Hrun3. cbn [fst snd]. tidy.
  cbn [Plan.subtasks Plan.id Plan.goal Plan.createdAt Plan.status assign_first Subtask.id
       Subtask.with_status Subtask.description Subtask.dependencies] in *.
  destruct (String.eqb_spec
              ("task-" +:+ pretty (clock w (1 + clockReads w)%nat) +:+ "-1")
              ("task-" +:+ pretty (clock w (2 + clockReads w)%nat) +:+ "-2"))
    as [Heq | _]; [destruct (task_ids_differ _ _ Heq) |].
  rewrite String.eqb_refl in *.
  rewrite insert_app_r_alt, Nat.sub_diag in * by reflexivity. cbn [insert list_insert] in *.
  split; [reflexivity |]. split; [reflexivity |].
  match goal with |- context [plan ?w3] =>
    edestruct (PlannerFacts.plan_cycle checkPlanProgress []
                 PlannerFacts.checkPlanProgress_resolves w3 (length (heap w)))
      as (w4 & Hrun4 & Hflag4 & _ & Hcases);
      [reflexivity | reflexivity | tidy; apply list_lookup_middle; reflexivity |]
  end.
  fold plan in Hrun4. rewrite Hrun4. cbn [snd].
  destruct Hcases as [(Hcrit & _) | [(_ & _ & Hheap & Hslot) | (_ & Hnot & _)]];
    [discriminate Hcrit | | discriminate Hnot].
  tidy_in Hheap. rewrite insert_app_r_alt, Nat.sub_diag in Hheap by reflexivity.
  cbn [insert list_insert] in Hheap.
  split; [exact Hslot |]. rewrite Hheap.
  rewrite !list_lookup_middle by reflexivity. auto.
Qed.

Lemma completing_both_subtasks_empties_the_slot_witness :
  exists l p t1 t2,
    currentPlan (snd (plan (init (fun _ => 1000)))) = Some l /\
    heap (snd (plan (init (fun _ => 1000)))) !! l = Some p /\
    Plan.subtasks p = [t1; t2] /\
    let second :=
      updateSubtaskStatus (Subtask.id t1) completed (snd (plan (init (fun _ => 1000)))) in
    let third := updateSubtaskStatus (Subtask.id t2) completed (snd second) in
    let last := snd (plan (snd third)) in
    fst second = Ret true /\
    fst third = Ret true /\
    currentPlan last = None /\
    (Plan.status <$> heap last !! l) = Some plan_completed /\
    (Plan.subtasks <$> heap last !! l)
      = Some [Subtask.with_status completed t1; Subtask.with_status completed t2] /\
    isPlanningInProgress last = false.
Proof.
  exact (completing_both_subtasks_empties_the_slot (init (fun _ => 1000)) eq_refl eq_refl).
Defined.

End PlannerMore.

(** * More about the single-timer loop: lifecycle, registration, invariants *)

Module LoopLifecycle.
Import Loop.

Ltac go := erewrite bind_run by reflexivity; tidy.

(** The planning interval after [start(options)]: an interval of [0] counts
    as not given. *)
Lemma start_when_stopped {Env : Type} (loopIntervalMs planIntervalMs_ : option Z)
    (w : World Env) :
  isRunning w = false ->
  exists entries,
    start loopIntervalMs planIntervalMs_ w =
      (Ret tt,
       mkWorld (triggers w) (Some (default 5000 loopIntervalMs)) true
         (planningFunction w) (clock w (clockReads w))
         (match planIntervalMs_ with
          | Some p => if Z.eqb p 0 then planIntervalMs w else p
          | None => planIntervalMs w
          end)
         (env w) (clock w) (S (clockReads w)) (journal w ++ entries)).
Proof.
  intros Hstopped. unfold start.
  destruct planIntervalMs_ as [p |]; [destruct (Z.eqb p 0) |];
    go; go; rewrite Hstopped; do 5 go; unfold modify; tidy;
    eexists; reflexivity.
Qed.

Lemma start_when_running {Env : Type} (loopIntervalMs planIntervalMs_ : option Z)
    (w : World Env) :
  isRunning w = true ->
  start loopIntervalMs planIntervalMs_ w =
    (Ret tt,
     mkWorld (triggers w) (loopTimer w) true (planningFunction w) (lastPlanTime w)
       (match planIntervalMs_ with
        | Some p => if Z.eqb p 0 then planIntervalMs w else p
        | None => planIntervalMs w
        end)
       (env w) (clock w) (clockReads w)
       (journal w ++ [mkLog warn "start_ignored" [] "Autonomous loop already running"])).
Proof.
  intros Hrunning. unfold start.
  destruct planIntervalMs_ as [p |]; [destruct (Z.eqb p 0) |];
    go; go; rewrite Hrunning; unfold elizaLogger; tidy; rewrite Hrunning; reflexivity.
Qed.

Lemma stop_when_running {Env : Type} (w : World Env) :
  isRunning w = true ->
  stop w =
    (Ret tt,
     mkWorld (triggers w) None false (planningFunction w) 0 (planIntervalMs w)
       (env w) (clock w) (clockReads w)
       (journal w ++ [mkLog info "stop" [] "Autonomous loop stopped"])).
Proof.
  intros Hrunning. unfold stop. go. rewrite Hrunning. do 3 go. reflexivity.
Qed.

Lemma stop_when_stopped {Env : Type} (w : World Env) :
  isRunning w = false ->
  stop w =
    (Ret tt,
     mkWorld (triggers w) (loopTimer w) false (planningFunction w) (lastPlanTime w)
       (planIntervalMs w) (env w) (clock w) (clockReads w)
       (journal w ++ [mkLog warn "stop_ignored" [] "Autonomous loop not running"])).
Proof.
  intros Hstopped. unfold stop. go. rewrite Hstopped.
  unfold elizaLogger. rewrite Hstopped. reflexivity.
Qed.

(** One iteration resolves whatever the callbacks do, and what it changes of
    the loop is the time of the last planning at most. *)
Lemma tick_frame {Env : Type} (w : World Env) :
  exists e' last' entries,
    tick w =
      (Ret tt,
       mkWorld (triggers w) (loopTimer w) (isRunning w) (planningFunction w) last'
         (planIntervalMs w) e' (clock w) (S (clockReads w)) (journal w ++ entries)) /\
    (last' = lastPlanTime w \/ last' = clock w (clockReads w)).
Proof.
  destruct (planningFunction w) as [planningFn |] eqn:Hfn.
  - destruct (LoopFacts.tick_with_planning w planningFn Hfn) as [es Htick].
    eexists. eexists. exists es. split; [exact Htick |].
    destruct (intervalElapsed _ w && resolved _); auto.
  - unfold tick, try_catch at 1.
    destruct (LoopFacts.executeTriggers_frame w) as (e1 & es & Hexec).
    erewrite bind_run by exact Hexec. tidy. do 3 go. rewrite Hfn.
    exists e1, (lastPlanTime w), es. split; [reflexivity | auto].
Qed.

(** What one call does to the two registries. *)
Lemma perform_registries {Env : Type} (c : LoopCalls.Call Env) (w : World Env) :
  triggers (LoopCalls.perform c w) = triggers w ++ LoopCalls.registered [c] /\
  planningFunction (LoopCalls.perform c w)
    = LoopCalls.planning_slot (planningFunction w) [c].
Proof.
  destruct c as [lo po | | trigger | planningFn |]; cbn [LoopCalls.perform
    LoopCalls.registered LoopCalls.planning_slot]; rewrite ?app_nil_r.
  - destruct (isRunning w) eqn:Hrun.
    + rewrite start_when_running by assumption. auto.
    + destruct (start_when_stopped lo po w Hrun) as [es ->]. auto.
  - destruct (isRunning w) eqn:Hrun.
    + rewrite stop_when_running by assumption. auto.
    + rewrite stop_when_stopped by assumption. auto.
  - auto.
  - auto.
  - unfold LoopCalls.fire. destruct (loopTimer w); [| auto].
    destruct (tick_frame w) as (e' & last' & es & -> & _). auto.
Qed.



(** X9. [start] on a running loop arms no timer and leaves the time of the last
    planning alone, but a planning interval given to it still takes effect. *)
Theorem loop_start_ignored_still_sets_interval {Env : Type}
    (loopIntervalMs : option Z) (p : Z) (w : World Env) :
  isRunning w = true ->
  p <> 0 ->
  exists w',
    start loopIntervalMs (Some p) w = (Ret tt, w') /\
    planIntervalMs w' = p /\
    loopTimer w' = loopTimer w /\
    lastPlanTime w' = lastPlanTime w /\
    isRunning w' = true /\
    triggers w' = triggers w /\
    planningFunction w' = planningFunction w /\
    env w' = env w /\
    journal w' =
      journal w ++ [mkLog warn "start_ignored" [] "Autonomous loop already running"].
Proof.
  intros Hrun Hp. rewrite start_when_running by assumption.
  eexists. split; [reflexivity |]. tidy.
  destruct (Z.eqb_spec p 0); [contradiction |]. auto 10.
Qed.

Lemma loop_start_ignored_still_sets_interval_witness :
  exists w',
    start (Some 100) (Some 200)
      (mkWorld [] (Some 5000) true None 1000 60000 tt (fun _ => 2000) 0 []) = (Ret tt, w') /\
    planIntervalMs w' = 200 /\
    loopTimer w' = Some 5000 /\
    lastPlanTime w' = 1000 /\
    isRunning w' = true /\
    triggers w' = [] /\
    planningFunction w' = None /\
    env w' = tt /\
    journal w' = [mkLog warn "start_ignored" [] "Autonomous loop already running"].
Proof.
  apply (loop_start_ignored_still_sets_interval (Some 100) 200
           (mkWorld [] (Some 5000) true None 1000 60000 tt (fun _ => 2000) 0 [])).
  - reflexivity.
  - discriminate.
Defined.


Lemma after_registries {Env : Type} (calls : list (LoopCalls.Call Env)) (w : World Env) :
  triggers (LoopCalls.after calls w) = triggers w ++ LoopCalls.registered calls /\
  planningFunction (LoopCalls.after calls w)
    = LoopCalls.planning_slot (planningFunction w) calls.
Proof.
  revert w. induction calls as [| c rest IH]; intros w.
  - cbn. rewrite app_nil_r. auto.
  - cbn [LoopCalls.after fold_left]. fold (LoopCalls.after rest (LoopCalls.perform c w)).
    destruct (IH (LoopCalls.perform c w)) as [-> ->].
    destruct (perform_registries c w) as [-> ->].
    destruct c; cbn [LoopCalls.registered LoopCalls.planning_slot];
      rewrite <- ?app_assoc, ?app_nil_r; auto.
Qed.


(** X11. The trigger registry is the list of the triggers registered, in the
    order of registration and with repetitions, and the planning slot holds
    the function set last: [start], [stop] and the timer never drop, reorder
    or replace registered work. *)
Theorem loop_registries_follow_registrations {Env : Type} (e : Env) (now : nat -> Z)
    (calls : list (LoopCalls.Call Env)) :
  triggers (LoopCalls.after calls (init e now)) = LoopCalls.registered calls /\
  planningFunction (LoopCalls.after calls (init e now))
    = LoopCalls.planning_slot None calls.
Proof. apply (after_registries calls (init e now)). Qed.

(** The environment after one iteration. *)
Lemma tick_env {Env : Type} (w : World Env) :
  env (snd (tick w)) =
    match planningFunction w with
    | Some planningFn =>
        if intervalElapsed (clock w (clockReads w)) w
        then snd (planningFn (env (snd (executeTriggers w))))
        else env (snd (executeTriggers w))
    | None => env (snd (executeTriggers w))
    end.
Proof.
  destruct (planningFunction w) as [planningFn |] eqn:Hfn.
  - destruct (LoopFacts.tick_with_planning w planningFn Hfn) as [es ->]. reflexivity.
  - unfold tick, try_catch at 1.
    destruct (LoopFacts.executeTriggers_frame w) as (e1 & es & Hexec).
    erewrite bind_run by exact Hexec. rewrite Hexec. tidy. do 3 go. rewrite Hfn.
    reflexivity.
Qed.

Lemma for_of_triggers_preserves {Env : Type} (P : Env -> Prop)
    (ts : list (M Env unit)) (w : World Env) :
  (forall trigger, trigger ∈ ts -> forall e, P e -> P (snd (trigger e))) ->
  P (env w) ->
  P (env (snd (for_of ts (fun trigger =>
                 try_catch (call trigger)
                   (fun e => elizaLogger error "trigger_error" [("error", e)]
                                         "Error executing trigger")) w))).
Proof.
  revert w. induction ts as [| trigger rest IH]; intros w Hts HP; [exact HP |].
  cbn [for_of]. erewrite bind_run by apply LoopFacts.trigger_isolated.
  apply IH.
  - intros t Ht. apply Hts. right. exact Ht.
  - tidy. apply Hts; [left | exact HP].
Qed.

Lemma executeTriggers_preserves {Env : Type} (P : Env -> Prop) (w : World Env) :
  (forall trigger, trigger ∈ triggers w -> forall e, P e -> P (snd (trigger e))) ->
  P (env w) ->
  P (env (snd (executeTriggers w))).
Proof.
  unfold executeTriggers. erewrite bind_run by reflexivity.
  apply for_of_triggers_preserves.
Qed.

(** What every unit keeps, an iteration keeps. *)
Lemma tick_preserves {Env : Type} (P : Env -> Prop) (w : World Env) :
  (forall trigger, trigger ∈ triggers w -> forall e, P e -> P (snd (trigger e))) ->
  (forall planningFn, planningFunction w = Some planningFn ->
     forall e, P e -> P (snd (planningFn e))) ->
  P (env w) ->
  P (env (snd (tick w))).
Proof.
  intros Hts Hfn HP. rewrite tick_env.
  pose proof (executeTriggers_preserves P w Hts HP) as HP1.
  destruct (planningFunction w) as [planningFn |]; [| exact HP1].
  destruct (intervalElapsed _ w); [| exact HP1].
  apply (Hfn planningFn eq_refl), HP1.
Qed.

(** X12. A property of the environment that every registered trigger and the
    planning function keep, whether they resolve or reject, holds after an
    iteration of the loop if it held before. *)
Theorem loop_tick_preserves_invariant {Env : Type} (P : Env -> Prop) (w : World Env) :
  (forall trigger, trigger ∈ triggers w -> forall e, P e -> P (snd (trigger e))) ->
  (forall planningFn, planningFunction w = Some planningFn ->
     forall e, P e -> P (snd (planningFn e))) ->
  P (env w) ->
  P (env (snd (tick w))).
Proof. exact (tick_preserves P w). Qed.

Lemma loop_tick_preserves_invariant_witness :
  Forall (fun i => (i < 3)%nat)
    (env (snd (tick (mkWorld (spies (Nat.eqb 1) 3) (Some 100) true
                             (Some (spy (fun _ => true) 0)) 0 200 [] (fun _ => 250) 0 [])))).
Proof.
  apply (loop_tick_preserves_invariant (Forall (fun i => (i < 3)%nat))).
  - intros trigger Hin e He. cbn [triggers] in Hin. unfold spies in Hin.
    apply list_elem_of_fmap in Hin. destruct Hin as (i & -> & Hi).
    apply elem_of_seq in Hi. cbn. apply Forall_app. split; [exact He |].
    constructor; [lia | constructor].
  - intros planningFn Hfn e He. cbn [planningFunction] in Hfn.
    injection Hfn as <-. cbn. apply Forall_app. split; [exact He |].
    constructor; [lia | constructor].
  - constructor.
Defined.



End LoopLifecycle.

(** * More about the two-timer loop *)

Module TimerLoopLifecycle.
Import TimerLoop.

Ltac go := erewrite bind_run by reflexivity; tidy.

Lemma timer_start_when_stopped {Env : Type} (w : World Env) :
  isRunning w = false ->
  start w =
    (Ret tt,
     mkWorld (triggers w) (planningCallback w) (Some (triggerInterval w))
       (match planningCallback w with
        | Some _ => Some (planningInterval w)
        | None => planningTimer w
        end)
       (triggerInterval w) (planningInterval w) true (env w)
       (console_out w ++ ["Starting autonomous loop"]) (console_err w)).
Proof.
  intros Hstopped. unfold start. go. rewrite Hstopped. do 5 go.
  destruct (planningCallback w); [go |]; reflexivity.
Qed.

Lemma timer_start_when_running {Env : Type} (w : World Env) :
  isRunning w = true ->
  start w =
    (Ret tt,
     mkWorld (triggers w) (planningCallback w) (loopTimer w) (planningTimer w)
       (triggerInterval w) (planningInterval w) true (env w)
       (console_out w ++ ["AutonomousLoop is already running"]) (console_err w)).
Proof.
  intros Hrunning. unfold start. go. rewrite Hrunning.
  unfold console_log. rewrite Hrunning. reflexivity.
Qed.

Lemma timer_stop_when_running {Env : Type} (w : World Env) :
  isRunning w = true ->
  stop w =
    (Ret tt,
     mkWorld (triggers w) (planningCallback w) None None
       (triggerInterval w) (planningInterval w) false (env w)
       (console_out w ++ ["Stopping autonomous loop"]) (console_err w)).
Proof.
  intros Hrunning. unfold stop. go. rewrite Hrunning. do 3 go. reflexivity.
Qed.

Lemma timer_stop_when_stopped {Env : Type} (w : World Env) :
  isRunning w = false ->
  stop w =
    (Ret tt,
     mkWorld (triggers w) (planningCallback w) (loopTimer w) (planningTimer w)
       (triggerInterval w) (planningInterval w) false (env w)
       (console_out w ++ ["AutonomousLoop is not running"]) (console_err w)).
Proof.
  intros Hstopped. unfold stop. go. rewrite Hstopped.
  unfold console_log. rewrite Hstopped. reflexivity.
Qed.

Lemma setPlanningCallback_effect {Env : Type} (planningFn : M Env unit) (w : World Env) :
  setPlanningCallback planningFn w =
    (Ret tt,
     mkWorld (triggers w) (Some planningFn) (loopTimer w)
       (match isRunning w, planningTimer w with
        | true, None => Some (planningInterval w)
        | _, _ => planningTimer w
        end)
       (triggerInterval w) (planningInterval w) (isRunning w) (env w)
       (console_out w) (console_err w)).
Proof.
  unfold setPlanningCallback. do 3 go.
  destruct (isRunning w) eqn:Hrun, (planningTimer w) eqn:Htimer;
    try go; unfold ret, modify, set_planningCallback, set_planningTimer; tidy;
    rewrite ?Hrun, ?Htimer; reflexivity.
Qed.

(** Whatever the triggers do, [executeTriggers] resolves and changes the
    environment and the error console only. *)
Lemma timer_for_of_frame {Env : Type} (ts : list (M Env unit)) (w : World Env) :
  exists e' lines,
    for_of ts (fun trigger =>
      try_catch (call trigger) (fun e => console_error "Error executing trigger:" e)) w
    = (Ret tt,
       mkWorld (triggers w) (planningCallback w) (loopTimer w) (planningTimer w)
         (triggerInterval w) (planningInterval w) (isRunning w) e' (console_out w)
         (console_err w ++ lines)).
Proof.
  revert w. induction ts as [| trigger rest IH]; intros w.
  - exists (env w), []. rewrite app_nil_r. destruct w; reflexivity.
  - cbn [for_of]. erewrite bind_run by apply LoopFacts.timer_trigger_isolated.
    match goal with |- context [for_of rest _ ?w1] =>
      destruct (IH w1) as (e' & ls & ->) end. tidy.
    exists e'. eexists. rewrite <- app_assoc. reflexivity.
Qed.

Lemma timer_executeTriggers_frame {Env : Type} (w : World Env) :
  exists e' lines,
    executeTriggers w
    = (Ret tt,
       mkWorld (triggers w) (planningCallback w) (loopTimer w) (planningTimer w)
         (triggerInterval w) (planningInterval w) (isRunning w) e' (console_out w)
         (console_err w ++ lines)).
Proof.
  unfold executeTriggers. erewrite bind_run by reflexivity. apply timer_for_of_frame.
Qed.

(** The planning callback, run by its timer: its effect on the environment is
    kept and its rejection becomes one line on the error console. *)
Lemma executePlanningCallback_effect {Env : Type} (w : World Env) :
  executePlanningCallback w =
    (Ret tt,
     match planningCallback w with
     | None => w
     | Some planningFn =>
         mkWorld (triggers w) (planningCallback w) (loopTimer w) (planningTimer w)
           (triggerInterval w) (planningInterval w) (isRunning w)
           (snd (planningFn (env w))) (console_out w)
           (console_err w ++ match fst (planningFn (env w)) with
                             | Ret _ => []
                             | Throw e => ["Error executing planning callback: " +:+ e]
                             end)
     end).
Proof.
  unfold executePlanningCallback. go.
  destruct (planningCallback w) as [planningFn |] eqn:Hcb; [| reflexivity].
  unfold try_catch, call. destruct (planningFn (env w)) as [[[] | e] e'].
  - unfold set_env. tidy. rewrite ?app_nil_r, ?Hcb. reflexivity.
  - unfold console_error, set_env. tidy. rewrite ?Hcb. reflexivity.
Qed.

(** The timers of a loop with intervals [ti] and [pi]: the trigger timer is
    armed exactly while the loop runs, the planning timer exactly while the
    loop runs and a planning callback is set. *)
Lemma timer_perform_lifecycle {Env : Type} (ti pi : Z) (c : TimerLoopCalls.Call Env)
    (w : World Env) :
  triggerInterval w = ti /\ planningInterval w = pi /\
  loopTimer w = (if isRunning w then Some ti else None) /\
  planningTimer w =
    (if isRunning w && bool_decide (is_Some (planningCallback w)) then Some pi else None) ->
  let w' := TimerLoopCalls.perform c w in
  triggerInterval w' = ti /\ planningInterval w' = pi /\
  loopTimer w' = (if isRunning w' then Some ti else None) /\
  planningTimer w' =
    (if isRunning w' && bool_decide (is_Some (planningCallback w')) then Some pi else None).
Proof.
  intros (Hti & Hpi & Hloop & Hplan) w'. subst w'.
  destruct c as [| | trigger | planningFn | |]; cbn [TimerLoopCalls.perform].
  - destruct (isRunning w) eqn:Hrun.
    + rewrite timer_start_when_running by assumption. cbn [snd]. tidy. auto.
    + rewrite timer_start_when_stopped by assumption. cbn [snd]. tidy.
      rewrite Hti, Hpi. repeat split.
      destruct (planningCallback w); cbn; [reflexivity | exact Hplan].
  - destruct (isRunning w) eqn:Hrun.
    + rewrite timer_stop_when_running by assumption. cbn [snd]. tidy. auto.
    + rewrite timer_stop_when_stopped by assumption. cbn [snd]. tidy. auto.
  - cbn. auto.
  - rewrite setPlanningCallback_effect. cbn [snd]. tidy.
    repeat split; try assumption.
    rewrite Hplan, Hpi.
    destruct (isRunning w); cbn; [| reflexivity].
    destruct (planningCallback w); cbn; reflexivity.
  - unfold TimerLoopCalls.fire_triggers. destruct (loopTimer w) eqn:Htimer.
    + destruct (timer_executeTriggers_frame w) as (e' & ls & ->). cbn [snd]. tidy.
      repeat split; congruence.
    + cbn [snd]. repeat split; congruence.
  - unfold TimerLoopCalls.fire_planning. destruct (planningTimer w) eqn:Htimer.
    + rewrite executePlanningCallback_effect.
      destruct (planningCallback w) eqn:Hcb; cbn [snd]; tidy; rewrite ?Hcb;
        repeat split; congruence.
    + cbn [snd]. repeat split; congruence.
Qed.

(** X14. After any sequence of public calls and timer firings on a new two-timer
    loop, the trigger timer is armed, with the trigger interval, exactly when
    the loop is running, and the planning timer is armed, with the planning
    interval, exactly when the loop is running and a planning callback is
    set. *)
Theorem timer_loop_timers_follow_state {Env : Type} (ti pi : option Z) (e : Env)
    (calls : list (TimerLoopCalls.Call Env)) :
  let w := TimerLoopCalls.after calls (init ti pi e) in
  loopTimer w = (if isRunning w then Some (default 10000 ti) else None) /\
  planningTimer w =
    (if isRunning w && bool_decide (is_Some (planningCallback w))
     then Some (default 60000 pi) else None).
Proof.
  cbn zeta.
  assert (H : forall w : World Env,
             triggerInterval w = default 10000 ti /\
             planningInterval w = default 60000 pi /\
             loopTimer w = (if isRunning w then Some (default 10000 ti) else None) /\
             planningTimer w =
               (if isRunning w && bool_decide (is_Some (planningCallback w))
                then Some (default 60000 pi) else None) ->
             loopTimer (TimerLoopCalls.after calls w)
               = (if isRunning (TimerLoopCalls.after calls w)
                  then Some (default 10000 ti) else None) /\
             planningTimer (TimerLoopCalls.after calls w)
               = (if isRunning (TimerLoopCalls.after calls w)
                     && bool_decide (is_Some (planningCallback (TimerLoopCalls.after calls w)))
                  then Some (default 60000 pi) else None)).
  { induction calls as [| c rest IH]; intros w Hinv.
    - destruct Hinv as (_ & _ & Hl & Hp). auto.
    - apply IH. apply (timer_perform_lifecycle _ _ c w Hinv). }
  apply H. cbn. auto.
Qed.

(** X15. The planning slot keeps the callback set last, and setting a callback
    while the planning timer is armed leaves the timer as it is. When the
    planning timer fires, only that callback runs and the call resolves, also
    when the callback rejects. *)
Theorem timer_loop_planning_callback_last_wins {Env : Type}
    (first second : M Env unit) (w : World Env) :
  let w2 := snd (setPlanningCallback second (snd (setPlanningCallback first w))) in
  planningCallback w2 = Some second /\
  planningTimer w2 = planningTimer (snd (setPlanningCallback first w)) /\
  exists w3,
    executePlanningCallback w2 = (Ret tt, w3) /\
    env w3 = snd (second (env w)) /\
    console_err w3 =
      console_err w ++ match fst (second (env w)) with
                       | Ret _ => []
                       | Throw e => ["Error executing planning callback: " +:+ e]
                       end.
Proof.
  cbn zeta. rewrite !setPlanningCallback_effect. cbn [snd]. tidy.
  split; [reflexivity |]. split.
  - destruct (isRunning w), (planningTimer w); reflexivity.
  - rewrite executePlanningCallback_effect. tidy. eexists. split; [reflexivity |].
    tidy. auto.
Qed.

End TimerLoopLifecycle.

(** * Registration and execution together; the service *)

Module RegistrationFacts.

Lemma loop_register_all {Env : Type} (ts : list (M Env unit)) (w : Loop.World Env) :
  fold_left (fun w' t => snd (Loop.registerTrigger t w')) ts w
  = Loop.set_triggers (Loop.triggers w ++ ts) w.
Proof.
  revert w. induction ts as [| t rest IH]; intros w; cbn [fold_left].
  - rewrite app_nil_r. destruct w; reflexivity.
  - rewrite IH. cbn. rewrite <- app_assoc. reflexivity.
Qed.

Lemma timer_register_all {Env : Type} (ts : list (M Env unit)) (w : TimerLoop.World Env) :
  fold_left (fun w' t => snd (TimerLoop.registerTrigger t w')) ts w
  = TimerLoop.set_triggers (TimerLoop.triggers w ++ ts) w.
Proof.
  revert w. induction ts as [| t rest IH]; intros w; cbn [fold_left].
  - rewrite app_nil_r. destruct w; reflexivity.
  - rewrite IH. cbn. rewrite <- app_assoc. reflexivity.
Qed.

(** X16. Units registered one after the other on a new loop, the same unit
    several times if so registered, are run by [executeTriggers] once per
    registration and in the order of registration; every rejection is
    reported once. This holds for both loops. *)
Theorem registered_units_run_once_per_registration (rejects : nat -> bool)
    (numbers : list nat) (now : nat -> Z) (ti pi : option Z) :
  let w := fold_left (fun w' t => snd (Loop.registerTrigger t w'))
                     (map (spy rejects) numbers) (Loop.init [] now) in
  let v := fold_left (fun v' t => snd (TimerLoop.registerTrigger t v'))
                     (map (spy rejects) numbers) (TimerLoop.init ti pi []) in
  exists w' v',
    Loop.executeTriggers w = (Ret tt, w') /\
    Loop.env w' = numbers /\
    length (Loop.journal w') = length (List.filter rejects numbers) /\
    TimerLoop.executeTriggers v = (Ret tt, v') /\
    TimerLoop.env v' = numbers /\
    length (TimerLoop.console_err v') = length (List.filter rejects numbers).
Proof.
  cbn zeta. rewrite loop_register_all, timer_register_all.
  unfold Loop.executeTriggers, TimerLoop.executeTriggers.
  erewrite !bind_run by reflexivity.
  cbn [Loop.triggers Loop.set_triggers Loop.init TimerLoop.triggers
       TimerLoop.set_triggers TimerLoop.init app].
  rewrite LoopFacts.for_of_spies, LoopFacts.timer_for_of_spies.
  eexists. eexists.
  split; [reflexivity |]. split; [reflexivity |].
  split; [cbn; apply List.length_map |].
  split; [reflexivity |]. split; [reflexivity |].
  cbn. apply List.length_map.
Qed.

End RegistrationFacts.

Module ServiceFacts.
Import Loop.

(** [plan] resolves in every world. *)
Lemma plan_resolves (w : Planner.World) : resolved (fst (Planner.plan w)) = true.
Proof.
  destruct (Planner.isPlanningInProgress w) eqn:Hflag.
  - unfold Planner.plan. rewrite PlannerFacts.plan_with_skips by assumption. reflexivity.
  - destruct (PlannerFacts.plan_with_clears_flag Planner.generatePlan
                Planner.checkPlanProgress w Hflag) as (w' & Hrun & _).
    unfold Planner.plan. rewrite Hrun. reflexivity.
Qed.

(** X17. In the service the planning function is the planner's [plan], which
    never rejects: an iteration of the loop that finds the planning interval
    elapsed resolves and always moves the time of the last planning to the
    time it read. *)
Theorem service_due_tick_advances_lastPlanTime (w : Service.World) :
  planningFunction w = Some Planner.plan ->
  intervalElapsed (clock w (clockReads w)) w = true ->
  fst (tick w) = Ret tt /\
  lastPlanTime (snd (tick w)) = clock w (clockReads w).
Proof.
  intros Hfn Hdue.
  destruct (LoopFacts.tick_with_planning w Planner.plan Hfn) as [es ->].
  cbn [fst snd]. tidy. rewrite Hdue, plan_resolves. auto.
Qed.

Lemma service_due_tick_advances_lastPlanTime_witness :
  fst (tick (snd (Service.start (Service.create (fun _ => 5) (fun n => 70000 * Z.of_nat n)))))
    = Ret tt /\
  lastPlanTime (snd (tick (snd (Service.start
                                  (Service.create (fun _ => 5)
                                                  (fun n => 70000 * Z.of_nat n))))))
    = 70000.
Proof.
  apply (service_due_tick_advances_lastPlanTime
           (snd (Service.start (Service.create (fun _ => 5) (fun n => 70000 * Z.of_nat n))))).
  - reflexivity.
  - reflexivity.
Defined.

(** X18. In the service, an iteration of the loop keeps the planner's slot
    holding nothing or an [active] plan, provided every registered trigger
    does. *)
Theorem service_tick_keeps_slot_current (w : Service.World) :
  planningFunction w = Some Planner.plan ->
  (forall trigger, trigger ∈ triggers w ->
     forall planner, Planner.slot_current planner ->
                     Planner.slot_current (snd (trigger planner))) ->
  Planner.slot_current (env w) ->
  Planner.slot_current (env (snd (tick w))).
Proof.
  intros Hfn Hts Hslot.
  apply (LoopLifecycle.tick_preserves Planner.slot_current w Hts);
    [| exact Hslot].
  intros planningFn Hfn' planner Hp. rewrite Hfn in Hfn'. injection Hfn' as <-.
  apply (PlannerFacts.plan_effect Planner.checkPlanProgress [] planner
           PlannerFacts.checkPlanProgress_resolves Hp).
Qed.

Lemma service_tick_keeps_slot_current_witness :
  Planner.slot_current
    (env (snd (tick (snd (Service.registerTrigger
                            (fun planner =>
                               (Throw "Trigger failure",
                                Planner.perform
                                  (Planner.call_updateSubtaskStatus "task-5-1"
                                                                    Planner.completed)
                                  planner))
                            (snd (Service.start
                                    (Service.create (fun _ => 5)
                                       (fun n => 70000 * Z.of_nat n))))))))).
Proof.
  apply service_tick_keeps_slot_current.
  - reflexivity.
  - intros trigger Hin planner Hp. cbn in Hin.
    apply list_elem_of_singleton in Hin. subst trigger.
    exact (PlannerFacts.slot_current_perform
             (Planner.call_updateSubtaskStatus "task-5-1" Planner.completed) planner Hp).
  - exact I.
Defined.

(** X19. A new service that is started generates its first plan in the first
    iteration of the loop that reads a time at least 60000 ms after the time
    [start] read; until then [getCurrentPlan] gives [null]. *)
Theorem service_first_plan_after_a_minute (planner_now loop_now : nat -> Z) :
  let started := snd (Service.start (Service.create planner_now loop_now)) in
  fst (Service.getCurrentPlan started) = Ret None /\
  fst (Service.getCurrentPlan (snd (tick started)))
    = Ret (if (60000 <=? loop_now 1%nat - loop_now 0%nat)%Z then Some 0%nat else None) /\
  ((60000 <=? loop_now 1%nat - loop_now 0%nat)%Z = true ->
   exists p,
     Planner.heap (env (snd (tick started))) = [p] /\
     Planner.Plan.status p = Planner.active /\
     Planner.Plan.id p = "plan-" +:+ pretty (planner_now 0%nat) /\
     Forall (fun task => Planner.Subtask.status task = Planner.pending)
            (Planner.Plan.subtasks p)).
Proof.
  cbn zeta. split; [reflexivity |].
  assert (Henv : env (snd (tick (snd (Service.start
                                        (Service.create planner_now loop_now)))))
                 = if (60000 <=? loop_now 1%nat - loop_now 0%nat)%Z
                   then snd (Planner.plan (Planner.init planner_now))
                   else Planner.init planner_now).
  { rewrite LoopLifecycle.tick_env. reflexivity. }
  destruct (PlannerMore.plan_generates_exact Planner.checkPlanProgress
              (Planner.init planner_now) eq_refl eq_refl) as [es Hrun].
  fold Planner.plan in Hrun.
  split.
  - unfold Service.getCurrentPlan, Service.on_planner, Planner.getCurrentPlan, gets.
    cbn [fst]. rewrite Henv, Hrun. cbn [snd].
    destruct (60000 <=? loop_now 1%nat - loop_now 0%nat)%Z; reflexivity.
  - intros Hdue. rewrite Henv, Hdue, Hrun. cbn [snd].
    eexists. split; [reflexivity |].
    split; [reflexivity |]. split; [reflexivity |].
    repeat constructor.
Qed.

Lemma service_first_plan_after_a_minute_witness :
  let started := snd (Service.start (Service.create (fun _ => 1000)
                                                    (fun n => 60000 * Z.of_nat n))) in
  fst (Service.getCurrentPlan started) = Ret None /\
  fst (Service.getCurrentPlan (snd (tick started))) = Ret (Some 0%nat) /\
  exists p,
    Planner.heap (env (snd (tick started))) = [p] /\
    Planner.Plan.status p = Planner.active /\
    Planner.Plan.id p = "plan-" +:+ pretty 1000 /\
    Forall (fun task => Planner.Subtask.status task = Planner.pending)
           (Planner.Plan.subtasks p).
Proof.
  cbn zeta.
  destruct (service_first_plan_after_a_minute (fun _ => 1000)
              (fun n => 60000 * Z.of_nat n)) as (Hnone & Hsome & Hplan).
  split; [exact Hnone |]. split; [exact Hsome |]. exact (Hplan eq_refl).
Defined.

End ServiceFacts.
